(** * Export repositories of doccano ([backend/api/views/download])

    A shallow embedding of [repositories.py] and [data.py]: the Django tables
    the repositories read, Python's insertion-ordered dictionaries, the
    generator protocol of [list()] (records yielded so far, then either
    exhaustion or a raised exception), and the five concrete repositories. *)

From Stdlib Require Import List String Ascii ZArith Bool Lia Permutation.
Import ListNotations.

Local Open Scope string_scope.
Local Open Scope list_scope.

Set Implicit Arguments.

(** ** Exceptions and fallible results *)

Inductive Error : Type :=
| AttributeError            (* a method the class does not define *)
| KeyError                  (* [d[k]] on a plain dict without [k] *)
| DoesNotExist              (* [Model.objects.get] found no row *)
| MultipleObjectsReturned.  (* [Model.objects.get] found several rows *)

Inductive Result (A : Type) : Type :=
| Ok (a : A)
| Raise (e : Error).

Arguments Ok {A} a.
Arguments Raise {A} e.

(** ** The models the repositories read ([...models]) *)

Module Models.

Definition Meta : Type := list (string * string).

Record Project : Type := {
  project_id : Z;
  collaborative_annotation : bool
}.

Record Example : Type := {
  example_id : Z;
  example_project : Z;
  text : string;
  filename : string;
  meta : Meta;
  annotations_approved_by : option string
}.

(** [doc.categories]: a category annotation, with [a.user.username] and
    [a.label.text]. *)
Record Category : Type := {
  category_example : Z;
  category_user : string;
  category_label : string
}.

(** [doc.spans] and [Span.objects]: a span annotation. *)
Record Span : Type := {
  span_id : Z;
  span_example : Z;
  span_user : string;
  start_offset : Z;
  end_offset : Z;
  span_label : string
}.

(** [doc.texts]: a free-text annotation. *)
Record TextLabel : Type := {
  textlabel_example : Z;
  textlabel_user : string;
  textlabel_text : string
}.

(** Modelled from the spec: the declaration of [AnnotationRelations] is in
    [models.py], which is not part of the sources at hand.  The fields the
    repository reads are [annotation_id_1], [annotation_id_2], [type.name]
    and [user.username]; the spec speaks of "the stored annotation
    relations for the project", hence the owning project of a row. *)
Record AnnotationRelations : Type := {
  annotation_id_1 : Z;
  annotation_id_2 : Z;
  relation_type : string;
  relation_user : string;
  relation_project : Z
}.

(** The tables, each in retrieval order. *)
Record Database : Type := {
  Example_objects : list Example;
  Category_objects : list Category;
  Span_objects : list Span;
  TextLabel_objects : list TextLabel;
  AnnotationRelations_objects : list AnnotationRelations
}.

(** [Example.objects.filter(project=p)], also [p.examples.all()]. *)
Definition Example_filter_project (db : Database) (p : Project) : list Example :=
  filter (fun e => Z.eqb (example_project e) (project_id p)) (Example_objects db).

(** [queryset.exclude(annotations_approved_by=None)]. *)
Definition exclude_unapproved (docs : list Example) : list Example :=
  filter (fun e => match annotations_approved_by e with
                   | Some _ => true
                   | None => false
                   end) docs.

(** [doc.categories.all()], [doc.spans.all()], [doc.texts.all()]. *)
Definition categories_all (db : Database) (doc : Example) : list Category :=
  filter (fun a => Z.eqb (category_example a) (example_id doc)) (Category_objects db).

Definition spans_all (db : Database) (doc : Example) : list Span :=
  filter (fun a => Z.eqb (span_example a) (example_id doc)) (Span_objects db).

Definition texts_all (db : Database) (doc : Example) : list TextLabel :=
  filter (fun a => Z.eqb (textlabel_example a) (example_id doc)) (TextLabel_objects db).

(** [Span.objects.get(id=i)]: the one row with that id, or an exception. *)
Definition Span_get (db : Database) (i : Z) : Result Span :=
  match filter (fun s => Z.eqb (span_id s) i) (Span_objects db) with
  | [] => Raise DoesNotExist
  | [s] => Ok s
  | _ :: _ :: _ => Raise MultipleObjectsReturned
  end.

End Models.
Import Models.

(** ** [data.py]: the exported record *)

(** A label value is a bare string (categories, transcripts) or the triple
    [(start_offset, end_offset, label.text)] of a span. *)
Inductive LabelValue : Type :=
| TextValue (s : string)
| SpanValue (start_ end_ : Z) (label_text : string).

(** [(span_1.start_offset, span_1.label.text,
      span_2.start_offset, span_2.label.text, a.type.name)] *)
Definition RelationTuple : Type := (Z * string * Z * string * string)%type.

Record Record_ : Type := mkRecord {
  id_ : Z;
  data : string;
  label : list LabelValue;
  user : string;
  metadata : Meta;
  annotation_relations : list RelationTuple
}.

(** The default of [Record.__init__]'s [annotation_relations] argument.
    Python shares this one list among all records built without the argument;
    the repositories never mutate it. *)
Definition Record_default_annotation_relations : list RelationTuple := [].

(** ** Python dictionaries

    A [dict] keeps its keys in insertion order; [defaultdict(list)] is a dict
    whose lookup of a missing key gives a fresh empty list. *)

Section PyDict.

Variable V : Type.

Record PyDict : Type := {
  default_factory : bool;              (* [true] for [defaultdict(list)] *)
  items : list (string * list V)
}.

Definition defaultdict_list : PyDict :=
  {| default_factory := true; items := [] |}.

Fixpoint lookup (its : list (string * list V)) (k : string) : option (list V) :=
  match its with
  | [] => None
  | (k', vs) :: rest => if String.eqb k' k then Some vs else lookup rest k
  end.

(** [d[k]] *)
Definition getitem (d : PyDict) (k : string) : Result (list V) :=
  match lookup (items d) k with
  | Some vs => Ok vs
  | None => if default_factory d then Ok [] else Raise KeyError
  end.

Fixpoint items_append (its : list (string * list V)) (k : string) (v : V)
  : list (string * list V) :=
  match its with
  | [] => [(k, [v])]
  | (k', vs) :: rest =>
      if String.eqb k' k then (k', vs ++ [v]) :: rest
      else (k', vs) :: items_append rest k v
  end.

(** [d[k].append(v)] on a [defaultdict(list)]: the first reference to [k]
    creates its bucket at the end of the dict. *)
Definition getitem_append (d : PyDict) (k : string) (v : V) : PyDict :=
  {| default_factory := default_factory d; items := items_append (items d) k v |}.

Definition values (d : PyDict) : list (list V) := map snd (items d).
Definition keys (d : PyDict) : list string := map fst (items d).
Definition len (d : PyDict) : nat := List.length (items d).

(** [reduce_user]: the one-key dict [{'all': value}], where [value] chains
    all of [d.values()]; the same in [FileRepository] and in
    [TextRepository]. *)
Definition reduce_user (d : PyDict) : PyDict :=
  let value := List.concat (values d) in
  {| default_factory := false; items := [("all", value)] |}.

End PyDict.

Arguments defaultdict_list {V}.

(** ** Generators

    A generator run to its end: the records it yielded, in order, and how it
    ended, by returning or by raising. *)

Definition Gen (A : Type) : Type := (list Record_ * Result A)%type.

Definition yielded {A} (g : Gen A) : list Record_ := fst g.

Definition raised {A} (g : Gen A) : option Error :=
  match snd g with
  | Ok _ => None
  | Raise e => Some e
  end.

Definition ret {A} (a : A) : Gen A := ([], Ok a).

Definition bind {A B} (m : Gen A) (f : A -> Gen B) : Gen B :=
  match m with
  | (ys, Raise e) => (ys, Raise e)
  | (ys, Ok a) => (ys ++ fst (f a), snd (f a))
  end.

Definition yield (r : Record_) : Gen unit := ([r], Ok tt).

Definition eval {A} (r : Result A) : Gen A := ([], r).

Declare Scope gen_scope.
Delimit Scope gen_scope with gen.
Notation "x <- m ;; k" := (bind m (fun x => k))
  (at level 61, m at next level, right associativity) : gen_scope.
Notation "m ;; k" := (bind m (fun _ => k))
  (at level 61, right associativity) : gen_scope.

(** [for x in xs: body] *)
Fixpoint for_each {A} (xs : list A) (body : A -> Gen unit) : Gen unit :=
  match xs with
  | [] => ret tt
  | x :: rest => (body x ;; for_each rest body)%gen
  end.

(** ** The repositories *)

Inductive FileKind : Type := FileRepository | Speech2TextRepository.

Inductive TextKind : Type :=
| TextClassificationRepository
| SequenceLabelingRepository
| Seq2seqRepository.

Inductive Repository : Type :=
| OfFile (k : FileKind)
| OfText (k : TextKind).

(** [str(example.filename).split('/')[-1]] *)
Fixpoint last_segment (s : string) (current : string) : string :=
  match s with
  | EmptyString => current
  | String c rest =>
      if Ascii.eqb c "/"%char then last_segment rest EmptyString
      else last_segment rest (current ++ String c EmptyString)
  end.

Definition basename (s : string) : string := last_segment s EmptyString.

Module FileRepo.

(** [FileRepository.label_per_user], overridden by
    [Speech2TextRepository.label_per_user]. *)
Definition label_per_user (k : FileKind) (db : Database) (example : Example)
  : PyDict LabelValue :=
  match k with
  | FileRepository =>
      fold_left (fun d a => getitem_append d (category_user a) (TextValue (category_label a)))
                (categories_all db example) defaultdict_list
  | Speech2TextRepository =>
      fold_left (fun d a => getitem_append d (textlabel_user a) (TextValue (textlabel_text a)))
                (texts_all db example) defaultdict_list
  end.

(** The body of the [for example in examples] loop. *)
Definition list_example (k : FileKind) (db : Database) (project : Project)
           (example : Example) : Gen unit :=
  (let label_per_user := label_per_user k db example in
   let label_per_user :=
     if collaborative_annotation project then reduce_user label_per_user
     else label_per_user in
   for_each (items label_per_user) (fun '(user, label) =>
     yield (mkRecord (example_id example) (basename (filename example))
                     label user (meta example)
                     Record_default_annotation_relations)) ;;
   if Nat.eqb (len label_per_user) 0
   then yield (mkRecord (example_id example) (basename (filename example))
                        [] "unknown" []
                        Record_default_annotation_relations)
   else ret tt)%gen.

(** [FileRepository.list] *)
Definition list_ (k : FileKind) (db : Database) (project : Project)
           (export_approved : bool) : Gen unit :=
  let examples := Example_filter_project db project in
  let examples := if export_approved then exclude_unapproved examples else examples in
  for_each examples (list_example k db project).

End FileRepo.

Module TextRepo.

(** [docs]: the same rows in every subclass ([prefetch_related] only
    changes how they are fetched). *)
Definition docs (db : Database) (project : Project) : list Example :=
  Example_filter_project db project.

(** [label_per_user] of the three concrete subclasses. *)
Definition label_per_user (k : TextKind) (db : Database) (doc : Example)
  : PyDict LabelValue :=
  match k with
  | TextClassificationRepository =>
      fold_left (fun d a => getitem_append d (category_user a) (TextValue (category_label a)))
                (categories_all db doc) defaultdict_list
  | SequenceLabelingRepository =>
      fold_left (fun d a =>
                   let label := SpanValue (start_offset a) (end_offset a) (span_label a) in
                   getitem_append d (span_user a) label)
                (spans_all db doc) defaultdict_list
  | Seq2seqRepository =>
      fold_left (fun d a => getitem_append d (textlabel_user a) (TextValue (textlabel_text a)))
                (texts_all db doc) defaultdict_list
  end.

(** The loop of [SequenceLabelingRepository.annotation_relations_per_user]
    over [AnnotationRelations.objects.all()]. *)
Fixpoint relations_loop (db : Database) (rows : list AnnotationRelations)
         (acc : PyDict RelationTuple) : Result (PyDict RelationTuple) :=
  match rows with
  | [] => Ok acc
  | a :: rest =>
      match Span_get db (annotation_id_1 a) with
      | Raise e => Raise e
      | Ok span_1 =>
          match Span_get db (annotation_id_2 a) with
          | Raise e => Raise e
          | Ok span_2 =>
              let annotation_relation :=
                (start_offset span_1, span_label span_1,
                 start_offset span_2, span_label span_2,
                 relation_type a) in
              relations_loop db rest
                (getitem_append acc (relation_user a) annotation_relation)
          end
      end
  end.

(** [self.annotation_relations_per_user()]: only
    [SequenceLabelingRepository] defines the method; neither
    [TextRepository] nor [BaseRepository] does, so the attribute lookup
    fails on the two other subclasses. *)
Definition annotation_relations_per_user (k : TextKind) (db : Database)
  : Result (PyDict RelationTuple) :=
  match k with
  | SequenceLabelingRepository =>
      relations_loop db (AnnotationRelations_objects db) defaultdict_list
  | TextClassificationRepository | Seq2seqRepository => Raise AttributeError
  end.

(** The body of the [for doc in docs] loop. *)
Definition list_doc (k : TextKind) (db : Database) (project : Project)
           (doc : Example) : Gen unit :=
  (let label_per_user := label_per_user k db doc in
   annotation_relations_per_user <- eval (annotation_relations_per_user k db) ;;
   let label_per_user :=
     if collaborative_annotation project then reduce_user label_per_user
     else label_per_user in
   let annotation_relations_per_user :=
     if collaborative_annotation project then reduce_user annotation_relations_per_user
     else annotation_relations_per_user in
   for_each (items label_per_user) (fun '(user, label) =>
     relations <- eval (getitem annotation_relations_per_user user) ;;
     yield (mkRecord (example_id doc) (text doc) label user (meta doc) relations)) ;;
   if Nat.eqb (len label_per_user) 0
   then yield (mkRecord (example_id doc) (text doc) [] "unknown" []
                        Record_default_annotation_relations)
   else ret tt)%gen.

(** [TextRepository.list] *)
Definition list_ (k : TextKind) (db : Database) (project : Project)
           (export_approved : bool) : Gen unit :=
  let docs := docs db project in
  let docs := if export_approved then exclude_unapproved docs else docs in
  for_each docs (list_doc k db project).

End TextRepo.

(** [repository.list(export_approved)] *)
Definition list_ (r : Repository) (db : Database) (project : Project)
           (export_approved : bool) : Gen unit :=
  match r with
  | OfFile k => FileRepo.list_ k db project export_approved
  | OfText k => TextRepo.list_ k db project export_approved
  end.

(** The documents one call of [list] goes through. *)
Definition selected (db : Database) (project : Project) (export_approved : bool)
  : list Example :=
  if export_approved then exclude_unapproved (Example_filter_project db project)
  else Example_filter_project db project.

(** The records of a run that carry the id of [doc]. *)
Definition records_of {A} (g : Gen A) (doc : Example) : list Record_ :=
  filter (fun r => Z.eqb (id_ r) (example_id doc)) (yielded g).

(** ** Dictionaries filled by [d[k].append(v)] *)

Section GroupingDefs.

Variables (A V : Type) (ku : A -> string) (kv : A -> V).

(** The loop [for a in xs: d[ku a].append(kv a)]. *)
Definition group (xs : list A) (d : PyDict V) : PyDict V :=
  fold_left (fun d a => getitem_append d (ku a) (kv a)) xs d.

(** [d[k]] on a [defaultdict(list)], which cannot fail. *)
Definition getitem_default (d : PyDict V) (k : string) : list V :=
  match lookup (items d) k with
  | Some vs => vs
  | None => []
  end.

Definition buckets_nonempty (its : list (string * list V)) : Prop :=
  Forall (fun kvs => snd kvs <> []) its.

End GroupingDefs.

Arguments group {A V} ku kv xs d.
Arguments getitem_default {V} d k.
Arguments buckets_nonempty {V} its.

(** ** The five repositories, uniformly *)

(** [Record.data]: the file's base name, or the document's text. *)
Definition data_of (r : Repository) (doc : Example) : string :=
  match r with
  | OfFile _ => basename (filename doc)
  | OfText _ => text doc
  end.

Definition category_item (a : Category) : string * LabelValue :=
  (category_user a, TextValue (category_label a)).

Definition span_item (a : Span) : string * LabelValue :=
  (span_user a, SpanValue (start_offset a) (end_offset a) (span_label a)).

Definition text_item (a : TextLabel) : string * LabelValue :=
  (textlabel_user a, TextValue (textlabel_text a)).

(** The annotations of [doc] that the repository's [label_per_user] goes
    through, each as its annotator and its label value, in retrieval order. *)
Definition annotations (r : Repository) (db : Database) (doc : Example)
  : list (string * LabelValue) :=
  match r with
  | OfFile FileRepository | OfText TextClassificationRepository =>
      map category_item (categories_all db doc)
  | OfFile Speech2TextRepository | OfText Seq2seqRepository =>
      map text_item (texts_all db doc)
  | OfText SequenceLabelingRepository =>
      map span_item (spans_all db doc)
  end.

Definition label_map (r : Repository) (db : Database) (doc : Example)
  : PyDict LabelValue :=
  match r with
  | OfFile k => FileRepo.label_per_user k db doc
  | OfText k => TextRepo.label_per_user k db doc
  end.

(** The relation map the records of a run read.  A file repository passes no
    relations to [Record], which then takes its default, the empty list: the
    same as reading an empty map. *)
Definition relation_map (r : Repository) (db : Database)
  : Result (PyDict RelationTuple) :=
  match r with
  | OfFile _ => Ok defaultdict_list
  | OfText k => TextRepo.annotation_relations_per_user k db
  end.

Definition loop_body (r : Repository) (db : Database) (p : Project) (doc : Example)
  : Gen unit :=
  match r with
  | OfFile k => FileRepo.list_example k db p doc
  | OfText k => TextRepo.list_doc k db p doc
  end.

Definition fallback (r : Repository) (doc : Example) : Record_ :=
  mkRecord (example_id doc) (data_of r doc) [] "unknown" [] [].

Definition annotator_record (r : Repository) (doc : Example)
           (arpu : PyDict RelationTuple) (ul : string * list LabelValue) : Record_ :=
  mkRecord (example_id doc) (data_of r doc) (snd ul) (fst ul) (meta doc)
           (getitem_default arpu (fst ul)).

Definition pooled_record (r : Repository) (doc : Example)
           (lpu : PyDict LabelValue) (arpu : PyDict RelationTuple) : Record_ :=
  mkRecord (example_id doc) (data_of r doc) (List.concat (values lpu)) "all"
           (meta doc) (List.concat (values arpu)).

(** What one document contributes when the relation map is [arpu]. *)
Definition doc_records (r : Repository) (p : Project) (doc : Example)
           (lpu : PyDict LabelValue) (arpu : PyDict RelationTuple) : list Record_ :=
  if collaborative_annotation p then [pooled_record r doc lpu arpu]
  else map (annotator_record r doc arpu) (items lpu)
       ++ (if Nat.eqb (len lpu) 0 then [fallback r doc] else []).

(** Document ids are a primary key of the example table. *)
Definition example_ids_unique (db : Database) : Prop :=
  NoDup (map example_id (Example_objects db)).

(** Span ids are a primary key of the span table. *)
Definition span_ids_unique (db : Database) : Prop :=
  NoDup (map span_id (Span_objects db)).

(** [Span.objects] has a row with id [i]. *)
Definition stored (db : Database) (i : Z) : bool :=
  existsb (fun s => Z.eqb (span_id s) i) (Span_objects db).

(** Both spans a relation references are stored. *)
Definition resolves (db : Database) (a : AnnotationRelations) : bool :=
  stored db (annotation_id_1 a) && stored db (annotation_id_2 a).

(** [t] is the tuple exported for the relation [a]. *)
Definition exported (db : Database) (a : AnnotationRelations) (t : RelationTuple)
  : Prop :=
  exists span_1 span_2,
    Span_get db (annotation_id_1 a) = Ok span_1 /\
    Span_get db (annotation_id_2 a) = Ok span_2 /\
    t = (start_offset span_1, span_label span_1,
         start_offset span_2, span_label span_2, relation_type a).

(** * Concrete projects *)

Module Fixtures.

Local Open Scope Z_scope.

Definition project_apart : Project :=
  {| project_id := 1; collaborative_annotation := false |}.

Definition project_pooled : Project :=
  {| project_id := 1; collaborative_annotation := true |}.

Definition doc_hello : Example :=
  {| example_id := 1; example_project := 1; text := "Hello";
     filename := "uploads/hello.wav"; meta := [("source", "demo")];
     annotations_approved_by := None |}.

Definition doc_world : Example :=
  {| example_id := 2; example_project := 1; text := "World";
     filename := "uploads/world.wav"; meta := [];
     annotations_approved_by := Some "carol" |}.

(** One document, two category annotations: alice's and bob's. *)
Definition db_hello : Database :=
  {| Example_objects := [doc_hello];
     Category_objects :=
       [ {| category_example := 1; category_user := "alice";
            category_label := "greeting" |};
         {| category_example := 1; category_user := "bob";
            category_label := "salutation" |} ];
     Span_objects := [];
     TextLabel_objects := [];
     AnnotationRelations_objects := [] |}.

(** One document, no annotation of any kind. *)
Definition db_plain : Database :=
  {| Example_objects := [doc_hello];
     Category_objects := [];
     Span_objects := [];
     TextLabel_objects := [];
     AnnotationRelations_objects := [] |}.

Definition span_per : Span :=
  {| span_id := 10; span_example := 1; span_user := "alice";
     start_offset := 5; end_offset := 8; span_label := "PER" |}.

Definition span_org : Span :=
  {| span_id := 11; span_example := 1; span_user := "alice";
     start_offset := 12; end_offset := 15; span_label := "ORG" |}.

Definition works_for : AnnotationRelations :=
  {| annotation_id_1 := 10; annotation_id_2 := 11;
     relation_type := "works_for"; relation_user := "alice";
     relation_project := 1 |}.

(** Two documents with spans of alice and bob, and alice's relation
    between the two spans of the first document. *)
Definition db_spans : Database :=
  {| Example_objects := [doc_hello; doc_world];
     Category_objects := [];
     Span_objects :=
       [ span_per; span_org;
         {| span_id := 12; span_example := 2; span_user := "alice";
            start_offset := 0; end_offset := 5; span_label := "LOC" |};
         {| span_id := 13; span_example := 2; span_user := "bob";
            start_offset := 0; end_offset := 5; span_label := "LOC" |} ];
     TextLabel_objects := [];
     AnnotationRelations_objects := [works_for] |}.

(** A relation whose second span is not stored. *)
Definition dangling : AnnotationRelations :=
  {| annotation_id_1 := 10; annotation_id_2 := 99;
     relation_type := "works_for"; relation_user := "alice";
     relation_project := 1 |}.

(** One document with one span, and the dangling relation. *)
Definition db_dangling : Database :=
  {| Example_objects := [doc_hello];
     Category_objects := [];
     Span_objects := [span_per];
     TextLabel_objects := [];
     AnnotationRelations_objects := [dangling] |}.

Definition project_other : Project :=
  {| project_id := 2; collaborative_annotation := false |}.

Definition doc_other : Example :=
  {| example_id := 7; example_project := 2; text := "Oslo is in Norway";
     filename := "uploads/oslo.wav"; meta := [];
     annotations_approved_by := None |}.

Definition located_in : AnnotationRelations :=
  {| annotation_id_1 := 20; annotation_id_2 := 21;
     relation_type := "located_in"; relation_user := "alice";
     relation_project := 2 |}.

(** Project 1 has one document with one span of alice; project 2 has a
    document with two spans of alice and a relation between them. *)
Definition db_two_projects : Database :=
  {| Example_objects := [doc_hello; doc_other];
     Category_objects := [];
     Span_objects :=
       [ span_per;
         {| span_id := 20; span_example := 7; span_user := "alice";
            start_offset := 0; end_offset := 4; span_label := "LOC" |};
         {| span_id := 21; span_example := 7; span_user := "alice";
            start_offset := 11; end_offset := 17; span_label := "LOC" |} ];
     TextLabel_objects := [];
     AnnotationRelations_objects := [located_in] |}.

End Fixtures.
Import Fixtures.

(** * Statements *)

(** The claim as written: the document contributes the one fallback record. *)
Definition unknown_fallback (r : Repository) (db : Database) (p : Project)
           (ea : bool) (doc : Example) : Prop :=
  exists rec,
    records_of (list_ r db p ea) doc = [rec] /\
    user rec = "unknown" /\ label rec = [] /\ metadata rec = [].

(** The claim as written: the document contributes one record, of ["all"],
    whose label chains the buckets of the per-annotator map in its iteration
    order, and is as long as the buckets together. *)
Definition pooled_into_all (r : Repository) (db : Database) (p : Project)
           (ea : bool) (doc : Example) : Prop :=
  exists rec,
    records_of (list_ r db p ea) doc = [rec] /\
    user rec = "all" /\
    label rec = List.concat (values (label_map r db doc)) /\
    List.length (label rec) =
      list_sum (map (@List.length LabelValue) (values (label_map r db doc))).

(** The claim as written, first half: a relation that does not resolve makes
    the export raise. *)
Definition dangling_relation_raises (db : Database) (p : Project) (ea : bool)
  : Prop :=
  (exists a, In a (AnnotationRelations_objects db) /\ resolves db a = false) ->
  raised (list_ (OfText SequenceLabelingRepository) db p ea) <> None.

(** The claim as written: only the fallback of ["unknown"] has no label. *)
Definition only_unknown_is_unlabelled (g : Gen unit) : Prop :=
  forall rec, In rec (yielded g) -> user rec <> "unknown" -> label rec <> [].

(** The record of alice for the first document of [db_spans]. *)
Definition record_of_alice : Record_ :=
  mkRecord 1 "Hello" [SpanValue 5 8 "PER"; SpanValue 12 15 "ORG"] "alice"
           [("source", "demo")] [(5%Z, "PER", 12%Z, "ORG", "works_for")].

(** The claim as written. *)
Definition approved_only (r : Repository) (db : Database) (p : Project) : Prop :=
  forall doc,
    In doc (Example_objects db) ->
    annotations_approved_by doc = None ->
    records_of (list_ r db p true) doc = [].

Definition every_document_exported (r : Repository) (db : Database) (p : Project)
  : Prop :=
  forall doc,
    In doc (Example_objects db) ->
    example_project doc = project_id p ->
    records_of (list_ r db p false) doc <> [].



(** ** Notions for the statements about the rest of the code *)

(** The character ['/'] occurs in [s]. *)
Fixpoint contains_slash (s : string) : bool :=
  match s with
  | EmptyString => false
  | String c rest => Ascii.eqb c "/"%char || contains_slash rest
  end.

(** The strings of [ks] after those of [seen], each once, in the order in
    which they first occur. *)
Fixpoint first_seen_from (seen ks : list string) : list string :=
  match ks with
  | [] => seen
  | k :: rest =>
      first_seen_from (if existsb (String.eqb k) seen then seen else seen ++ [k]) rest
  end.

Definition first_seen (ks : list string) : list string := first_seen_from [] ks.

(** What identifies a record of one export: its document and its user. *)
Definition record_key (rec : Record_) : Z * string := (id_ rec, user rec).

(** The exceptions [Span.objects.get] raises. *)
Definition lookup_error (e : Error) : Prop :=
  e = DoesNotExist \/ e = MultipleObjectsReturned.

(** The tabulation character, ['\t']. *)
Definition tab : ascii := "009"%char.

(** [Record.__str__]: [f'{self.data}\t{self.label}'].  How Python prints the
    list of labels is left open: [str_label] stands for [str] on that list. *)
Definition Record_str (str_label : list LabelValue -> string) (rec : Record_)
  : string :=
  data rec ++ String tab (str_label (label rec)).

(** The characters of [s] before its first tabulation: [s.split('\t')[0]]. *)
Fixpoint before_tab (s : string) : string :=
  match s with
  | EmptyString => EmptyString
  | String c rest => if Ascii.eqb c tab then EmptyString else String c (before_tab rest)
  end.

Fixpoint contains_tab (s : string) : bool :=
  match s with
  | EmptyString => false
  | String c rest => Ascii.eqb c tab || contains_tab rest
  end.

(** ** The lists of a run, as objects

    [list] builds its records from list objects that it creates, fills in
    place with [append], and hands to [Record] by reference; the records
    built without [annotation_relations] all share one list, the default of
    [Record.__init__], which outlives the call.  The definitions below run
    the same code over these objects. *)

Definition Addr : Type := nat.

Section Heap.

Variable V : Type.

(** The list objects by address, in the order of their creation. *)
Definition Heap : Type := list (list V).

(** The elements of the list at [a]. *)
Definition deref (h : Heap) (a : Addr) : list V := nth a h [].

(** A new list object, as made by [[]], [list(...)] or [defaultdict(list)]
    for a missing key. *)
Definition new_list (h : Heap) (l : list V) : Addr * Heap :=
  (List.length h, h ++ [l]).

(** [l.append(v)]: the list at [a] changes in place. *)
Fixpoint list_append (h : Heap) (a : Addr) (v : V) : Heap :=
  match h, a with
  | [], _ => []
  | l :: rest, O => (l ++ [v]) :: rest
  | l :: rest, S a' => l :: list_append rest a' v
  end.

(** A dict whose values are list objects.  The dict itself is held by one
    local variable only, so it is kept by value. *)
Record RefDict : Type := {
  ref_default_factory : bool;
  ref_items : list (string * Addr)
}.

Definition ref_defaultdict_list : RefDict :=
  {| ref_default_factory := true; ref_items := [] |}.

Fixpoint ref_lookup (its : list (string * Addr)) (k : string) : option Addr :=
  match its with
  | [] => None
  | (k', a) :: rest => if String.eqb k' k then Some a else ref_lookup rest k
  end.

(** [d[k]]: on a [defaultdict(list)] a missing key gets a new empty list,
    which stays in the dict. *)
Definition ref_getitem (d : RefDict) (k : string) (h : Heap)
  : Result Addr * RefDict * Heap :=
  match ref_lookup (ref_items d) k with
  | Some a => (Ok a, d, h)
  | None =>
      if ref_default_factory d
      then let (a, h') := new_list h [] in
           (Ok a,
            {| ref_default_factory := true; ref_items := ref_items d ++ [(k, a)] |},
            h')
      else (Raise KeyError, d, h)
  end.

(** [d[k].append(v)] on a [defaultdict(list)]. *)
Definition ref_getitem_append (d : RefDict) (k : string) (v : V) (h : Heap)
  : RefDict * Heap :=
  match ref_lookup (ref_items d) k with
  | Some a => (d, list_append h a v)
  | None =>
      let (a, h') := new_list h [] in
      ({| ref_default_factory := ref_default_factory d;
          ref_items := ref_items d ++ [(k, a)] |},
       list_append h' a v)
  end.

(** [reduce_user]: [value] is a new list, the chain of the lists of [d]. *)
Definition ref_reduce_user (d : RefDict) (h : Heap) : RefDict * Heap :=
  let (a, h') := new_list h (List.concat (map (deref h) (map snd (ref_items d)))) in
  ({| ref_default_factory := false; ref_items := [("all", a)] |}, h').



End Heap.

Arguments ref_getitem {V} d k h.
Arguments ref_reduce_user {V} d h.

(** The list objects of the labels and those of the relations. *)
Record Objects : Type := {
  label_lists : Heap LabelValue;
  relation_lists : Heap RelationTuple
}.

(** The default of [annotation_relations] is the first list of relations:
    it is created with the class, before any call. *)
Definition Record_default : Addr := 0%nat.

(** A record as Python holds it: [label] and [annotation_relations] are
    references to list objects.  The other fields are kept as values: they
    are immutable, or, for the metadata, belong to the model instance that
    the query of this call has just created. *)
Record RecordRef : Type := mkRecordRef {
  ref_id : Z;
  ref_data : string;
  ref_label : Addr;
  ref_user : string;
  ref_metadata : Meta;
  ref_annotation_relations : Addr
}.


(** A generator run to its end over the objects: the records yielded, how
    it ended, and the objects it leaves. *)
Definition Run : Type := (list RecordRef * Result unit * Objects)%type.



Module InPlace.

(** [label_per_user] of the five repositories. *)
Definition label_per_user (r : Repository) (db : Database) (doc : Example)
           (h : Heap LabelValue) : RefDict * Heap LabelValue :=
  match r with
  | OfFile FileRepository | OfText TextClassificationRepository =>
      fold_left (fun dh a =>
                   ref_getitem_append (fst dh) (category_user a)
                                      (TextValue (category_label a)) (snd dh))
                (categories_all db doc) (ref_defaultdict_list, h)
  | OfFile Speech2TextRepository | OfText Seq2seqRepository =>
      fold_left (fun dh a =>
                   ref_getitem_append (fst dh) (textlabel_user a)
                                      (TextValue (textlabel_text a)) (snd dh))
                (texts_all db doc) (ref_defaultdict_list, h)
  | OfText SequenceLabelingRepository =>
      fold_left (fun dh a =>
                   let label := SpanValue (start_offset a) (end_offset a) (span_label a) in
                   ref_getitem_append (fst dh) (span_user a) label (snd dh))
                (spans_all db doc) (ref_defaultdict_list, h)
  end.

(** The loop of [annotation_relations_per_user]; the lists filled before an
    exception stay among the objects. *)
Fixpoint relations_loop (db : Database) (rows : list AnnotationRelations)
         (acc : RefDict) (h : Heap RelationTuple)
  : Result RefDict * Heap RelationTuple :=
  match rows with
  | [] => (Ok acc, h)
  | a :: rest =>
      match Span_get db (annotation_id_1 a) with
      | Raise e => (Raise e, h)
      | Ok span_1 =>
          match Span_get db (annotation_id_2 a) with
          | Raise e => (Raise e, h)
          | Ok span_2 =>
              let annotation_relation :=
                (start_offset span_1, span_label span_1,
                 start_offset span_2, span_label span_2,
                 relation_type a) in
              let (acc', h') :=
                ref_getitem_append acc (relation_user a) annotation_relation h in
              relations_loop db rest acc' h'
          end
      end
  end.

Definition annotation_relations_per_user (k : TextKind) (db : Database)
           (h : Heap RelationTuple) : Result RefDict * Heap RelationTuple :=
  match k with
  | SequenceLabelingRepository =>
      relations_loop db (AnnotationRelations_objects db) ref_defaultdict_list h
  | TextClassificationRepository | Seq2seqRepository => (Raise AttributeError, h)
  end.

(** [for user, label in label_per_user.items(): yield Record(...)] of
    [TextRepository.list]; the lookup [annotation_relations_per_user[user]]
    may add a key, so the dict is threaded through the loop. *)
Fixpoint yield_records (doc : Example) (its : list (string * Addr))
         (arpu : RefDict) (h : Heap RelationTuple)
  : list RecordRef * Result unit * Heap RelationTuple :=
  match its with
  | [] => ([], Ok tt, h)
  | (user, label) :: rest =>
      match ref_getitem arpu user h with
      | (Raise e, _, h') => ([], Raise e, h')
      | (Ok relations, arpu', h') =>
          let rec := mkRecordRef (example_id doc) (text doc) label user
                                 (meta doc) relations in
          let '(recs, res, h'') := yield_records doc rest arpu' h' in
          (rec :: recs, res, h'')
      end
  end.

(** The body of the document loop of [TextRepository.list]. *)
Definition list_doc (k : TextKind) (db : Database) (project : Project)
           (doc : Example) (o : Objects) : Run :=
  let (label_per_user, lh) := label_per_user (OfText k) db doc (label_lists o) in
  match annotation_relations_per_user k db (relation_lists o) with
  | (Raise e, rh) => ([], Raise e, {| label_lists := lh; relation_lists := rh |})
  | (Ok annotation_relations_per_user, rh) =>
      let (label_per_user, lh) :=
        if collaborative_annotation project then ref_reduce_user label_per_user lh
        else (label_per_user, lh) in
      let (annotation_relations_per_user, rh) :=
        if collaborative_annotation project
        then ref_reduce_user annotation_relations_per_user rh
        else (annotation_relations_per_user, rh) in
      match yield_records doc (ref_items label_per_user)
                          annotation_relations_per_user rh with
      | (recs, Raise e, rh) =>
          (recs, Raise e, {| label_lists := lh; relation_lists := rh |})
      | (recs, Ok _, rh) =>
          if Nat.eqb (List.length (ref_items label_per_user)) 0
          then let (empty, lh) := new_list lh [] in
               (recs ++ [mkRecordRef (example_id doc) (text doc) empty "unknown" []
                                     Record_default],
                Ok tt, {| label_lists := lh; relation_lists := rh |})
          else (recs, Ok tt, {| label_lists := lh; relation_lists := rh |})
      end
  end.

(** The body of the example loop of [FileRepository.list]: every record
    takes the default of [annotation_relations]. *)
Definition list_example (k : FileKind) (db : Database) (project : Project)
           (example : Example) (o : Objects) : Run :=
  let (label_per_user, lh) := label_per_user (OfFile k) db example (label_lists o) in
  let (label_per_user, lh) :=
    if collaborative_annotation project then ref_reduce_user label_per_user lh
    else (label_per_user, lh) in
  let recs :=
    map (fun ul => mkRecordRef (example_id example) (basename (filename example))
                               (snd ul) (fst ul) (meta example) Record_default)
        (ref_items label_per_user) in
  if Nat.eqb (List.length (ref_items label_per_user)) 0
  then let (empty, lh) := new_list lh [] in
       (recs ++ [mkRecordRef (example_id example) (basename (filename example))
                             empty "unknown" [] Record_default],
        Ok tt, {| label_lists := lh; relation_lists := relation_lists o |})
  else (recs, Ok tt, {| label_lists := lh; relation_lists := relation_lists o |}).

(** [for doc in docs: ...], until a turn raises. *)
Fixpoint for_each (docs : list Example) (body : Example -> Objects -> Run)
         (o : Objects) : Run :=
  match docs with
  | [] => ([], Ok tt, o)
  | doc :: rest =>
      match body doc o with
      | (recs, Raise e, o') => (recs, Raise e, o')
      | (recs, Ok _, o') =>
          let '(recs', res, o'') := for_each rest body o' in
          (recs ++ recs', res, o'')
      end
  end.

(** [repository.list(export_approved)], run to its end from the objects [o]. *)
Definition list_ (r : Repository) (db : Database) (project : Project)
           (export_approved : bool) (o : Objects) : Run :=
  let docs := Example_filter_project db project in
  let docs := if export_approved then exclude_unapproved docs else docs in
  match r with
  | OfFile k => for_each docs (list_example k db project) o
  | OfText k => for_each docs (list_doc k db project) o
  end.

End InPlace.







(** * Properties *)

Unset Implicit Arguments.

(** ** Generators *)

Section GenFacts.

Variable A : Type.
Variable body : A -> Gen unit.

Lemma for_each_cons x xs :
  for_each (x :: xs) body = bind (body x) (fun _ => for_each xs body).
Proof. reflexivity. Qed.

(** A record of the loop was yielded by one of its iterations. *)
Lemma for_each_yielded_in xs r :
  In r (yielded (for_each xs body)) ->
  exists x, In x xs /\ In r (yielded (body x)).
Proof.
  induction xs as [|x xs IH]; simpl; [tauto|].
  unfold yielded, bind in *.
  destruct (body x) as [ys [[]|e]] eqn:E; simpl.
  - rewrite in_app_iff. intros [H|H].
    + exists x. rewrite E. auto.
    + destruct (IH H) as (y & Hy & Hr). eauto.
  - intros H. exists x. rewrite E. auto.
Qed.

(** When every iteration returns, the loop returns and has yielded the
    records of the iterations, one after the other. *)
Lemma for_each_all_ok xs :
  (forall x, In x xs -> snd (body x) = Ok tt) ->
  for_each xs body = (flat_map (fun x => yielded (body x)) xs, Ok tt).
Proof.
  induction xs as [|x xs IH]; intros H; [reflexivity|].
  rewrite for_each_cons. unfold bind.
  destruct (body x) as [ys res] eqn:E.
  assert (Hx : snd (body x) = Ok tt) by (apply H; left; reflexivity).
  rewrite E in Hx. simpl in Hx. subst res.
  rewrite IH by (intros y Hy; apply H; right; exact Hy).
  simpl. unfold yielded. rewrite E. reflexivity.
Qed.

(** When the first iteration raises before it yields, so does the loop. *)
Lemma for_each_raise_first x xs e :
  body x = ([], Raise e) -> for_each (x :: xs) body = ([], Raise e).
Proof. intros E. rewrite for_each_cons, E. reflexivity. Qed.

(** A loop that returns has returned from every iteration. *)
Lemma for_each_ok_inv xs :
  raised (for_each xs body) = None ->
  forall x, In x xs -> snd (body x) = Ok tt.
Proof.
  induction xs as [|x xs IH]; intros H y Hy; [destruct Hy|].
  rewrite for_each_cons in H. unfold raised, bind in *.
  destruct (body x) as [ys [[]|e]] eqn:E; simpl in H; [|discriminate].
  destruct Hy as [<-|Hy].
  - rewrite E. reflexivity.
  - apply IH; assumption.
Qed.

End GenFacts.

(** A loop whose body yields exactly one record, always. *)
Lemma for_each_yield_map (A : Type) (f : A -> Record_) (body : A -> Gen unit) xs :
  (forall x, body x = ([f x], Ok tt)) ->
  for_each xs body = (map f xs, Ok tt).
Proof.
  intros H. rewrite for_each_all_ok by (intros x _; rewrite H; reflexivity).
  f_equal. induction xs as [|x xs IH]; simpl; [reflexivity|].
  unfold yielded at 1. rewrite H. simpl. f_equal. exact IH.
Qed.

(** ** Dictionaries built by [d[k].append(v)] *)

Section Grouping.

Variables (A V : Type) (ku : A -> string) (kv : A -> V).

Lemma getitem_defaultdict (d : PyDict V) k :
  default_factory d = true -> getitem d k = Ok (getitem_default d k).
Proof.
  unfold getitem, getitem_default. intros ->.
  destruct (lookup (items d) k); reflexivity.
Qed.

Lemma lookup_items_append (its : list (string * list V)) k v u :
  lookup (items_append its k v) u =
  if String.eqb k u
  then Some (match lookup its k with Some vs => vs | None => [] end ++ [v])
  else lookup its u.
Proof.
  induction its as [|[k' vs] its IH]; simpl.
  - destruct (String.eqb_spec k u); reflexivity.
  - destruct (String.eqb_spec k' k) as [->|Hk]; simpl.
    + destruct (String.eqb_spec k u) as [->|Hu]; [reflexivity|].
      reflexivity.
    + rewrite IH. destruct (String.eqb_spec k u) as [->|Hu].
      * destruct (String.eqb_spec k' u); [contradiction|reflexivity].
      * reflexivity.
Qed.

Lemma getitem_default_append (d : PyDict V) k v u :
  getitem_default (getitem_append d k v) u =
  getitem_default d u ++ (if String.eqb k u then [v] else []).
Proof.
  unfold getitem_default, getitem_append. simpl.
  rewrite lookup_items_append.
  destruct (String.eqb_spec k u) as [->|Hu].
  - reflexivity.
  - rewrite app_nil_r. reflexivity.
Qed.

Lemma group_default_factory xs (d : PyDict V) :
  default_factory (group ku kv xs d) = default_factory d.
Proof.
  revert d. induction xs as [|a xs IH]; intros d; simpl; [reflexivity|].
  rewrite IH. reflexivity.
Qed.

(** The bucket of [u] holds the values of [u]'s items, in the order of [xs]. *)
Lemma getitem_default_group xs (d : PyDict V) u :
  getitem_default (group ku kv xs d) u =
  getitem_default d u ++ map kv (filter (fun a => String.eqb (ku a) u) xs).
Proof.
  revert d. induction xs as [|a xs IH]; intros d; simpl.
  - rewrite app_nil_r. reflexivity.
  - rewrite IH, getitem_default_append.
    destruct (String.eqb (ku a) u); simpl.
    + rewrite <- app_assoc. reflexivity.
    + rewrite app_nil_r. reflexivity.
Qed.

(** *** Keys *)

Lemma keys_items_append (its : list (string * list V)) k v u :
  In u (map fst (items_append its k v)) <-> In u (map fst its) \/ u = k.
Proof.
  induction its as [|[k' vs] its IH]; simpl.
  - intuition.
  - destruct (String.eqb_spec k' k) as [->|Hk]; simpl.
    + intuition.
    + rewrite IH. intuition.
Qed.

Lemma keys_group xs (d : PyDict V) u :
  In u (keys (group ku kv xs d)) <-> In u (keys d) \/ exists a, In a xs /\ ku a = u.
Proof.
  revert d. induction xs as [|a xs IH]; intros d; simpl.
  - split; [auto|]. intros [H|(a & [] & _)]. exact H.
  - rewrite IH. unfold keys at 1, getitem_append. simpl.
    rewrite keys_items_append. fold (keys d). split.
    + intros [[H| ->]|(b & Hb & Hu)]; eauto.
    + intros [H|(b & [<-|Hb] & Hu)]; eauto.
Qed.

Lemma NoDup_items_append (its : list (string * list V)) k v :
  NoDup (map fst its) -> NoDup (map fst (items_append its k v)).
Proof.
  induction its as [|[k' vs] its IH]; simpl; intros H.
  - constructor; [intros []|constructor].
  - inversion H as [|? ? Hnotin Hnd]; subst.
    destruct (String.eqb_spec k' k) as [->|Hk]; simpl.
    + constructor; assumption.
    + constructor; [|auto].
      rewrite keys_items_append. intros [Hin| ->]; [auto|congruence].
Qed.

Lemma NoDup_keys_group xs (d : PyDict V) :
  NoDup (keys d) -> NoDup (keys (group ku kv xs d)).
Proof.
  revert d. induction xs as [|a xs IH]; intros d H; simpl; [exact H|].
  apply IH. unfold keys, getitem_append. simpl.
  apply NoDup_items_append. exact H.
Qed.

Lemma lookup_In (its : list (string * list V)) u vs :
  NoDup (map fst its) -> In (u, vs) its -> lookup its u = Some vs.
Proof.
  induction its as [|[k' ws] its IH]; simpl; intros Hnd Hin; [destruct Hin|].
  inversion Hnd as [|? ? Hnotin Hnd']; subst.
  destruct Hin as [Heq|Hin].
  - inversion Heq; subst. rewrite String.eqb_refl. reflexivity.
  - destruct (String.eqb_spec k' u) as [->|Hk].
    + exfalso. apply Hnotin. apply (in_map fst) in Hin. exact Hin.
    + auto.
Qed.

(** *** Buckets are never empty *)

Lemma buckets_nonempty_append (its : list (string * list V)) k v :
  buckets_nonempty its -> buckets_nonempty (items_append its k v).
Proof.
  unfold buckets_nonempty.
  induction its as [|[k' vs] its IH]; simpl; intros H.
  - constructor; [discriminate|constructor].
  - inversion H; subst.
    destruct (String.eqb k' k); constructor; simpl; auto.
    destruct vs; discriminate.
Qed.

Lemma buckets_nonempty_group xs (d : PyDict V) :
  buckets_nonempty (items d) -> buckets_nonempty (items (group ku kv xs d)).
Proof.
  revert d. induction xs as [|a xs IH]; intros d H; simpl; [exact H|].
  apply IH. simpl. apply buckets_nonempty_append. exact H.
Qed.

(** *** Size *)

Lemma length_concat_items_append (its : list (string * list V)) k v :
  List.length (List.concat (map snd (items_append its k v))) =
  S (List.length (List.concat (map snd its))).
Proof.
  induction its as [|[k' vs] its IH]; simpl; [reflexivity|].
  destruct (String.eqb k' k); simpl.
  - rewrite !length_app. simpl. lia.
  - rewrite !length_app, IH. lia.
Qed.

(** The buckets hold as many values as the loop has appended. *)
Lemma length_concat_group xs (d : PyDict V) :
  List.length (List.concat (values (group ku kv xs d))) =
  (List.length (List.concat (values d)) + List.length xs)%nat.
Proof.
  revert d. induction xs as [|a xs IH]; intros d; simpl; [lia|].
  rewrite IH. unfold values, getitem_append. simpl.
  rewrite length_concat_items_append. lia.
Qed.

Lemma group_nil_items xs :
  items (group ku kv xs defaultdict_list) = [] <-> xs = [].
Proof.
  split; [|intros ->; reflexivity].
  intros H. pose proof (length_concat_group xs defaultdict_list) as L.
  unfold values in L. rewrite H in L. simpl in L.
  destruct xs; [reflexivity|simpl in L; lia].
Qed.

End Grouping.

(** ** The five repositories, uniformly *)

Lemma group_map (A B V : Type) (g : A -> B) (ku : B -> string) (kv : B -> V) xs d :
  group ku kv (map g xs) d = group (fun a => ku (g a)) (fun a => kv (g a)) xs d.
Proof.
  revert d. induction xs as [|a xs IH]; intros d; simpl; [reflexivity|].
  apply IH.
Qed.

(** [label_per_user] groups the document's annotations by annotator. *)
Lemma label_map_group r db doc :
  label_map r db doc = group fst snd (annotations r db doc) defaultdict_list.
Proof.
  destruct r as [[]|[]]; simpl; rewrite group_map; reflexivity.
Qed.

Lemma list_for_each r db p ea :
  list_ r db p ea = for_each (selected db p ea) (loop_body r db p).
Proof.
  destruct r; simpl; unfold FileRepo.list_, TextRepo.list_, TextRepo.docs, selected;
    destruct ea; reflexivity.
Qed.

Lemma relations_loop_default_factory db rows :
  forall acc d, TextRepo.relations_loop db rows acc = Ok d ->
                default_factory d = default_factory acc.
Proof.
  induction rows as [|a rows IH]; simpl; intros acc d H.
  - inversion H. reflexivity.
  - destruct (Span_get db (annotation_id_1 a)); [|discriminate].
    destruct (Span_get db (annotation_id_2 a)); [|discriminate].
    apply IH in H. exact H.
Qed.

Lemma relation_map_defaultdict r db arpu :
  relation_map r db = Ok arpu -> default_factory arpu = true.
Proof.
  destruct r as [k|[]]; simpl; intros H; try discriminate.
  - inversion H. reflexivity.
  - apply relations_loop_default_factory in H. exact H.
Qed.

(** One turn of the document loop, when the relation map is available. *)
Lemma loop_body_ok r db p doc arpu :
  relation_map r db = Ok arpu ->
  loop_body r db p doc = (doc_records r p doc (label_map r db doc) arpu, Ok tt).
Proof.
  intros H. pose proof (relation_map_defaultdict r db arpu H) as Hdef.
  unfold doc_records.
  destruct r as [k|k]; simpl in *.
  - inversion H; subst arpu. clear H Hdef.
    unfold FileRepo.list_example.
    destruct (collaborative_annotation p); simpl.
    + reflexivity.
    + rewrite for_each_yield_map
        with (f := annotator_record (OfFile k) doc defaultdict_list)
        by (intros [u l]; reflexivity).
      unfold bind. simpl.
      destruct (Nat.eqb (len (FileRepo.label_per_user k db doc)) 0); reflexivity.
  - unfold TextRepo.list_doc. rewrite H. unfold eval at 1. unfold bind at 1.
    simpl. destruct (collaborative_annotation p); simpl.
    + reflexivity.
    + rewrite for_each_yield_map
        with (f := annotator_record (OfText k) doc arpu).
      * unfold bind. simpl.
        destruct (Nat.eqb (len (TextRepo.label_per_user k db doc)) 0); reflexivity.
      * intros [u l]. rewrite getitem_defaultdict by exact Hdef. reflexivity.
Qed.

(** One turn of the document loop, when building the relation map raises:
    nothing is yielded for the document. *)
Lemma loop_body_raise r db p doc e :
  relation_map r db = Raise e ->
  loop_body r db p doc = ([], Raise e).
Proof.
  destruct r as [k|k]; simpl; intros H; [discriminate|].
  unfold TextRepo.list_doc. rewrite H. reflexivity.
Qed.

(** [list] with an available relation map: every selected document
    contributes its records, and the generator returns. *)
Lemma list_ok r db p ea arpu :
  relation_map r db = Ok arpu ->
  list_ r db p ea =
  (flat_map (fun doc => doc_records r p doc (label_map r db doc) arpu)
            (selected db p ea), Ok tt).
Proof.
  intros H. rewrite list_for_each.
  rewrite for_each_all_ok
    by (intros doc _; rewrite (loop_body_ok r db p doc arpu H); reflexivity).
  f_equal. apply flat_map_ext. intros doc.
  rewrite (loop_body_ok r db p doc arpu H). reflexivity.
Qed.

(** [list] when building the relation map raises: the exception surfaces at
    the first document, before any record. *)
Lemma list_raise r db p ea e :
  relation_map r db = Raise e ->
  selected db p ea <> [] ->
  list_ r db p ea = ([], Raise e).
Proof.
  intros H Hne. rewrite list_for_each.
  destruct (selected db p ea) as [|doc docs]; [congruence|].
  apply for_each_raise_first. apply loop_body_raise. exact H.
Qed.

Lemma list_no_documents r db p ea :
  selected db p ea = [] -> list_ r db p ea = ([], Ok tt).
Proof. intros H. rewrite list_for_each, H. reflexivity. Qed.

(** A run that returns has either seen no document or read a relation map. *)
Lemma list_returns_inv r db p ea :
  raised (list_ r db p ea) = None ->
  selected db p ea = [] \/ exists arpu, relation_map r db = Ok arpu.
Proof.
  intros H. destruct (selected db p ea) as [|doc docs] eqn:E; [left; reflexivity|].
  right. destruct (relation_map r db) as [arpu|e] eqn:R; [eauto|].
  rewrite (@list_raise r db p ea e R) in H by (rewrite E; discriminate).
  discriminate.
Qed.

(** Every record of a document carries the document's id. *)
Lemma doc_records_id r p doc lpu arpu rec :
  In rec (doc_records r p doc lpu arpu) -> id_ rec = example_id doc.
Proof.
  unfold doc_records. destruct (collaborative_annotation p).
  - intros [<-|[]]. reflexivity.
  - rewrite in_app_iff, in_map_iff. intros [((u & l) & <- & _)|H]; [reflexivity|].
    destruct (Nat.eqb (len lpu) 0); [|destruct H].
    destruct H as [<-|[]]. reflexivity.
Qed.

Lemma filter_none (A : Type) (P : A -> bool) l :
  (forall x, In x l -> P x = false) -> filter P l = [].
Proof.
  induction l as [|x l IH]; simpl; intros H; [reflexivity|].
  rewrite (H x) by (left; reflexivity). apply IH. intros y Hy. apply H. right. exact Hy.
Qed.

Lemma filter_all (A : Type) (P : A -> bool) l :
  (forall x, In x l -> P x = true) -> filter P l = l.
Proof.
  induction l as [|x l IH]; simpl; intros H; [reflexivity|].
  rewrite (H x) by (left; reflexivity). f_equal. apply IH. intros y Hy. apply H. right. exact Hy.
Qed.

(** With ids that identify the documents, the records of a run that carry
    the id of [doc] are the ones [doc] contributed. *)
Lemma filter_id_flat_map (f : Example -> list Record_) docs doc :
  (forall d rec, In rec (f d) -> id_ rec = example_id d) ->
  NoDup (map example_id docs) ->
  In doc docs ->
  filter (fun rec => Z.eqb (id_ rec) (example_id doc)) (flat_map f docs) = f doc.
Proof.
  intros Hid.
  assert (Hother : forall ds, ~ In (example_id doc) (map example_id ds) ->
            filter (fun rec => Z.eqb (id_ rec) (example_id doc)) (flat_map f ds) = []).
  { intros ds Hn. apply filter_none. intros rec Hrec.
    apply in_flat_map in Hrec. destruct Hrec as (d & Hd & Hrec).
    apply Z.eqb_neq. rewrite (Hid _ _ Hrec). intros Heq. apply Hn.
    rewrite <- Heq. apply in_map. exact Hd. }
  induction docs as [|d docs IH]; simpl; intros Hnd Hin; [destruct Hin|].
  inversion Hnd as [|? ? Hnotin Hnd']; subst.
  rewrite filter_app. destruct Hin as [->|Hin].
  - rewrite Hother by exact Hnotin. rewrite app_nil_r.
    apply filter_all. intros rec Hrec. rewrite (Hid _ _ Hrec). apply Z.eqb_refl.
  - rewrite IH by assumption.
    rewrite filter_none; [reflexivity|].
    intros rec Hrec. apply Z.eqb_neq. rewrite (Hid _ _ Hrec). intros Heq.
    apply Hnotin. rewrite Heq. apply in_map. exact Hin.
Qed.

Lemma NoDup_map_filter (A B : Type) (f : A -> B) (P : A -> bool) l :
  NoDup (map f l) -> NoDup (map f (filter P l)).
Proof.
  induction l as [|x l IH]; simpl; intros H; [constructor|].
  inversion H as [|? ? Hnotin Hnd]; subst.
  destruct (P x); simpl; [|auto].
  constructor; [|auto].
  intros Hin. apply Hnotin. apply in_map_iff in Hin.
  destruct Hin as (y & Hy & Hin). apply filter_In in Hin.
  rewrite <- Hy. apply in_map. tauto.
Qed.

Lemma selected_ids_unique db p ea :
  example_ids_unique db -> NoDup (map example_id (selected db p ea)).
Proof.
  unfold example_ids_unique, selected, exclude_unapproved, Example_filter_project.
  intros H. destruct ea; repeat apply NoDup_map_filter; exact H.
Qed.

(** The records of a returning run that carry the id of a selected document
    are the records that document contributed. *)
Lemma records_of_selected r db p ea arpu doc :
  example_ids_unique db ->
  relation_map r db = Ok arpu ->
  In doc (selected db p ea) ->
  records_of (list_ r db p ea) doc = doc_records r p doc (label_map r db doc) arpu.
Proof.
  intros Hu Hr Hin. unfold records_of. rewrite (list_ok r db p ea arpu Hr). simpl.
  apply (filter_id_flat_map
           (fun d => doc_records r p d (label_map r db d) arpu)).
  - intros d rec. apply doc_records_id.
  - apply selected_ids_unique. exact Hu.
  - exact Hin.
Qed.

(** ** Resolving the spans of a relation *)

Lemma filter_nil_existsb (A : Type) (P : A -> bool) l :
  filter P l = [] <-> existsb P l = false.
Proof.
  induction l as [|x l IH]; simpl; [tauto|].
  destruct (P x); simpl; [split; discriminate|exact IH].
Qed.

Lemma Span_get_missing db i :
  stored db i = false -> Span_get db i = Raise DoesNotExist.
Proof.
  unfold stored, Span_get. intros H.
  apply filter_nil_existsb in H. rewrite H. reflexivity.
Qed.

Lemma Span_get_Ok_stored db i s :
  Span_get db i = Ok s -> stored db i = true /\ In s (Span_objects db) /\ span_id s = i.
Proof.
  unfold Span_get, stored. intros H.
  destruct (filter (fun s => Z.eqb (span_id s) i) (Span_objects db))
    as [|s1 [|s2 l]] eqn:E; try discriminate.
  inversion H; subst s1.
  assert (Hin : In s (filter (fun s => Z.eqb (span_id s) i) (Span_objects db)))
    by (rewrite E; left; reflexivity).
  apply filter_In in Hin. destruct Hin as [Hin Hid]. apply Z.eqb_eq in Hid.
  repeat split; try assumption.
  destruct (existsb _ _) eqn:X; [reflexivity|].
  apply filter_nil_existsb in X. congruence.
Qed.

Lemma filter_id_at_most_one (l : list Span) i :
  NoDup (map span_id l) ->
  (List.length (filter (fun s => Z.eqb (span_id s) i) l) <= 1)%nat.
Proof.
  induction l as [|s l IH]; simpl; intros H; [lia|].
  inversion H as [|? ? Hnotin Hnd]; subst.
  destruct (Z.eqb_spec (span_id s) i) as [Heq|Hne]; simpl; [|auto].
  rewrite filter_none; [simpl; lia|].
  intros s' Hs'. apply Z.eqb_neq. intros Heq'. apply Hnotin.
  rewrite Heq, <- Heq'. apply in_map. exact Hs'.
Qed.

(** With unique ids, [get] finds the span whenever one is stored. *)
Lemma Span_get_stored db i :
  span_ids_unique db -> stored db i = true -> exists s, Span_get db i = Ok s.
Proof.
  unfold span_ids_unique, stored, Span_get. intros Hu Hs.
  pose proof (filter_id_at_most_one (Span_objects db) i Hu) as L.
  destruct (filter (fun s => Z.eqb (span_id s) i) (Span_objects db))
    as [|s1 [|s2 l]] eqn:E.
  - apply filter_nil_existsb in E. congruence.
  - eauto.
  - simpl in L. lia.
Qed.

Lemma relations_loop_all_resolve db rows :
  span_ids_unique db ->
  (forall a, In a rows -> resolves db a = true) ->
  forall acc, exists d, TextRepo.relations_loop db rows acc = Ok d.
Proof.
  intros Hu. induction rows as [|a rows IH]; simpl; intros H acc; [eauto|].
  assert (Ha : resolves db a = true) by (apply H; left; reflexivity).
  unfold resolves in Ha. apply andb_true_iff in Ha. destruct Ha as [H1 H2].
  destruct (Span_get_stored db _ Hu H1) as (s1 & ->).
  destruct (Span_get_stored db _ Hu H2) as (s2 & ->).
  apply IH. intros b Hb. apply H. right. exact Hb.
Qed.

Lemma relations_loop_dangling db rows :
  span_ids_unique db ->
  (exists a, In a rows /\ resolves db a = false) ->
  forall acc, TextRepo.relations_loop db rows acc = Raise DoesNotExist.
Proof.
  intros Hu. induction rows as [|a rows IH]; simpl; intros (b & Hb & Hres) acc.
  - destruct Hb.
  - destruct (stored db (annotation_id_1 a)) eqn:S1.
    + destruct (Span_get_stored db _ Hu S1) as (s1 & ->).
      destruct (stored db (annotation_id_2 a)) eqn:S2.
      * destruct (Span_get_stored db _ Hu S2) as (s2 & ->).
        apply IH. destruct Hb as [->|Hb]; [|eauto].
        unfold resolves in Hres. rewrite S1, S2 in Hres. discriminate.
      * rewrite (Span_get_missing db _ S2). reflexivity.
    + rewrite (Span_get_missing db _ S1). reflexivity.
Qed.

(** The bucket of [u] in the relation map: the tuples of [u]'s relations, in
    retrieval order, after what the bucket held before the loop. *)
Lemma relations_loop_buckets db rows u :
  forall acc d,
    TextRepo.relations_loop db rows acc = Ok d ->
    exists ts,
      getitem_default d u = getitem_default acc u ++ ts /\
      Forall2 (exported db)
              (filter (fun a => String.eqb (relation_user a) u) rows) ts.
Proof.
  induction rows as [|a rows IH]; simpl; intros acc d H.
  - inversion H; subst. exists []. rewrite app_nil_r. split; constructor.
  - destruct (Span_get db (annotation_id_1 a)) as [s1|] eqn:G1; [|discriminate].
    destruct (Span_get db (annotation_id_2 a)) as [s2|] eqn:G2; [|discriminate].
    destruct (IH _ _ H) as (ts & Hts & Hall).
    rewrite getitem_default_append in Hts.
    destruct (String.eqb (relation_user a) u).
    + eexists (_ :: ts). rewrite <- app_assoc in Hts. split; [exact Hts|].
      constructor; [|exact Hall]. exists s1, s2. auto.
    + exists ts. rewrite app_nil_r in Hts. auto.
Qed.

(** What [annotation_relations_per_user()] holds for [u]. *)
Lemma annotation_relations_per_user_bucket db arpu u :
  TextRepo.annotation_relations_per_user SequenceLabelingRepository db = Ok arpu ->
  Forall2 (exported db)
          (filter (fun a => String.eqb (relation_user a) u)
                  (AnnotationRelations_objects db))
          (getitem_default arpu u).
Proof.
  simpl. intros H.
  destruct (relations_loop_buckets db _ u _ _ H) as (ts & Hts & Hall).
  rewrite Hts. exact Hall.
Qed.

(** Only the repositories whose class lacks the method raise
    [AttributeError], and they do at the first document. *)
Lemma missing_method_raises k db p ea :
  k = TextClassificationRepository \/ k = Seq2seqRepository ->
  selected db p ea <> [] ->
  list_ (OfText k) db p ea = ([], Raise AttributeError).
Proof.
  intros [-> | ->] H; apply list_raise; auto.
Qed.

(** A file repository never raises. *)
Lemma file_repository_returns k db p ea :
  raised (list_ (OfFile k) db p ea) = None.
Proof.
  rewrite (@list_ok (OfFile k) db p ea defaultdict_list) by reflexivity.
  reflexivity.
Qed.

(** ** Where the records of a run come from *)

Lemma yielded_inv r db p ea rec :
  In rec (yielded (list_ r db p ea)) ->
  exists doc arpu,
    In doc (selected db p ea) /\
    relation_map r db = Ok arpu /\
    In rec (doc_records r p doc (label_map r db doc) arpu).
Proof.
  intros H. destruct (relation_map r db) as [arpu|e] eqn:R.
  - rewrite (list_ok r db p ea arpu R) in H. simpl in H.
    apply in_flat_map in H. destruct H as (doc & Hdoc & Hrec). eauto.
  - exfalso. destruct (selected db p ea) as [|d ds] eqn:E.
    + rewrite (list_no_documents r db p ea E) in H. exact H.
    + rewrite (list_raise r db p ea e R) in H by (rewrite E; discriminate).
      exact H.
Qed.

Lemma doc_records_separate r p doc lpu arpu rec :
  collaborative_annotation p = false ->
  In rec (doc_records r p doc lpu arpu) ->
  (exists ul, In ul (items lpu) /\ rec = annotator_record r doc arpu ul) \/
  (items lpu = [] /\ rec = fallback r doc).
Proof.
  unfold doc_records. intros ->. rewrite in_app_iff, in_map_iff.
  intros [(ul & <- & Hul)|H]; [left; eauto|right].
  unfold len in H. destruct (items lpu); simpl in H; [|destruct H].
  destruct H as [<-|[]]. auto.
Qed.

Lemma label_map_buckets_nonempty r db doc ul :
  In ul (items (label_map r db doc)) -> snd ul <> [].
Proof.
  rewrite label_map_group. intros H.
  pose proof (@buckets_nonempty_group _ _ fst snd (annotations r db doc)
                defaultdict_list (Forall_nil _)) as F.
  unfold buckets_nonempty in F. rewrite Forall_forall in F. apply F. exact H.
Qed.

Lemma label_map_keys_NoDup r db doc : NoDup (keys (label_map r db doc)).
Proof.
  rewrite label_map_group. apply NoDup_keys_group. constructor.
Qed.

(** The bucket of an annotator holds that annotator's label values, and only
    those, in retrieval order. *)
Lemma label_map_bucket r db doc u l :
  In (u, l) (items (label_map r db doc)) ->
  l = map snd (filter (fun a => String.eqb (fst a) u) (annotations r db doc)).
Proof.
  intros H.
  pose proof (lookup_In _ (items (label_map r db doc)) u l
                (label_map_keys_NoDup r db doc) H) as L.
  pose proof (getitem_default_group _ _ fst snd (annotations r db doc)
                defaultdict_list u) as G.
  rewrite <- label_map_group in G. unfold getitem_default at 1 in G.
  rewrite L in G. exact G.
Qed.

(** In a run that returns, a document of a project that keeps annotators
    apart contributes one record per annotator of the document, each with
    that annotator's label values, or the fallback when there is none. *)
Lemma records_per_annotator r db p ea doc :
  example_ids_unique db ->
  collaborative_annotation p = false ->
  raised (list_ r db p ea) = None ->
  In doc (selected db p ea) ->
  exists arpu,
    relation_map r db = Ok arpu /\
    records_of (list_ r db p ea) doc =
      map (annotator_record r doc arpu) (items (label_map r db doc))
      ++ (if Nat.eqb (len (label_map r db doc)) 0 then [fallback r doc] else []) /\
    NoDup (keys (label_map r db doc)) /\
    (forall u, In u (keys (label_map r db doc)) <->
               exists a, In a (annotations r db doc) /\ fst a = u) /\
    (forall u l, In (u, l) (items (label_map r db doc)) ->
       l = map snd (filter (fun a => String.eqb (fst a) u) (annotations r db doc))).
Proof.
  intros Hu Hc Hr Hin.
  destruct (list_returns_inv r db p ea Hr) as [E|(arpu & R)].
  - rewrite E in Hin. destruct Hin.
  - exists arpu. split; [exact R|]. split.
    + rewrite (records_of_selected r db p ea arpu doc Hu R Hin). unfold doc_records.
      rewrite Hc. reflexivity.
    + split; [apply label_map_keys_NoDup|]. split.
      * intros u. rewrite label_map_group, keys_group. simpl. tauto.
      * apply label_map_bucket.
Qed.

(** * The claims *)

(** ** C1: one record per annotator, text classification *)

(** The same rows read by the file repository, whose [list] does not ask for
    relations: alice's record, then bob's. *)
Example file_repository_hello :
  list_ (OfFile FileRepository) db_hello project_apart false =
  ([ mkRecord 1 "hello.wav" [TextValue "greeting"] "alice" [("source", "demo")] [];
     mkRecord 1 "hello.wav" [TextValue "salutation"] "bob" [("source", "demo")] [] ],
   Ok tt).
Proof. reflexivity. Qed.

(** C1.  On the project of the example (one document "Hello", alice's
    "greeting" and bob's "salutation", annotators kept apart) the
    text-classification repository yields no record at all: [list] asks for
    [self.annotation_relations_per_user()], which the class does not have,
    and the run ends with [AttributeError] at the first document. *)
Theorem C1_text_classification_raises :
  list_ (OfText TextClassificationRepository) db_hello project_apart false =
  ([], Raise AttributeError).
Proof. reflexivity. Qed.

(** ** C2: the fallback record of a document without annotations *)

(** C2, as written, fails on a project that pools its annotators: the
    document without annotations is exported under ["all"], with the
    metadata of the example. *)
Lemma C2_pooled_project_has_no_fallback :
  In doc_hello (selected db_plain project_pooled false) /\
  annotations (OfFile FileRepository) db_plain doc_hello = [] /\
  list_ (OfFile FileRepository) db_plain project_pooled false =
    ([mkRecord 1 "hello.wav" [] "all" [("source", "demo")] []], Ok tt) /\
  ~ unknown_fallback (OfFile FileRepository) db_plain project_pooled false doc_hello.
Proof.
  split; [left; reflexivity|]. split; [reflexivity|]. split; [reflexivity|].
  intros (rec & Hrec & Huser & _). vm_compute in Hrec.
  inversion Hrec; subst rec. discriminate Huser.
Qed.

(** C2, amended.  In a run that raises no exception, a selected document
    without annotations contributes exactly one record: the fallback
    (["unknown"], no label, no metadata) when the project keeps annotators
    apart, and a record of ["all"] without label, with the metadata of the
    example, when the project pools them. *)
Theorem C2_unannotated_document r db p ea doc :
  example_ids_unique db ->
  In doc (selected db p ea) ->
  annotations r db doc = [] ->
  raised (list_ r db p ea) = None ->
  (collaborative_annotation p = false ->
   records_of (list_ r db p ea) doc =
     [mkRecord (example_id doc) (data_of r doc) [] "unknown" [] []] /\
   unknown_fallback r db p ea doc) /\
  (collaborative_annotation p = true ->
   exists rec,
     records_of (list_ r db p ea) doc = [rec] /\
     user rec = "all" /\ label rec = [] /\ metadata rec = meta doc).
Proof.
  intros Hu Hin Hann Hr.
  destruct (list_returns_inv r db p ea Hr) as [E|(arpu & R)];
    [rewrite E in Hin; destruct Hin|].
  rewrite (records_of_selected r db p ea arpu doc Hu R Hin).
  unfold doc_records, unknown_fallback.
  rewrite (records_of_selected r db p ea arpu doc Hu R Hin).
  unfold doc_records.
  rewrite label_map_group, Hann. simpl.
  split; intros ->.
  - split; [reflexivity|]. eexists. split; [reflexivity|]. simpl. auto.
  - eexists. split; [reflexivity|]. simpl. auto.
Qed.

(** The document of [db_plain] in a sequence-labeling export. *)
Lemma C2_unannotated_document_witness :
  records_of (list_ (OfText SequenceLabelingRepository) db_plain project_apart false)
             doc_hello =
  [mkRecord 1 "Hello" [] "unknown" [] []].
Proof.
  refine (proj1 (proj1 (C2_unannotated_document
            (OfText SequenceLabelingRepository) db_plain project_apart false
            doc_hello _ _ _ _) _)).
  - unfold example_ids_unique. simpl. repeat constructor. intros [].
  - left. reflexivity.
  - reflexivity.
  - reflexivity.
  - reflexivity.
Defined.

(** ** C3: the pooled record of a collaborative project *)

(** C3, as written, fails when the export raises: with a relation whose span
    is not stored, the sequence-labeling export of a collaborative project
    ends with [DoesNotExist] and the document contributes nothing. *)
Lemma C3_no_record_when_export_raises :
  In doc_hello (selected db_dangling project_pooled false) /\
  list_ (OfText SequenceLabelingRepository) db_dangling project_pooled false =
    ([], Raise DoesNotExist) /\
  ~ pooled_into_all (OfText SequenceLabelingRepository) db_dangling
      project_pooled false doc_hello.
Proof.
  split; [left; reflexivity|]. split; [reflexivity|].
  intros (rec & Hrec & _). vm_compute in Hrec. discriminate Hrec.
Qed.

Lemma length_concat (A : Type) (ls : list (list A)) :
  List.length (List.concat ls) = list_sum (map (@List.length A) ls).
Proof.
  induction ls as [|l ls IH]; simpl; [reflexivity|].
  rewrite length_app, IH. reflexivity.
Qed.

(** C3, amended.  In a run of a collaborative project that raises no
    exception, every selected document contributes exactly one record, of
    ["all"]; its label is the chain of the annotators' buckets in the
    iteration order of the per-annotator map, hence as long as the buckets
    together, which is the number of annotations of the document. *)
Theorem C3_collaborative_document r db p ea doc :
  example_ids_unique db ->
  collaborative_annotation p = true ->
  In doc (selected db p ea) ->
  raised (list_ r db p ea) = None ->
  pooled_into_all r db p ea doc /\
  List.length (List.concat (values (label_map r db doc))) =
    List.length (annotations r db doc).
Proof.
  intros Hu Hc Hin Hr.
  destruct (list_returns_inv r db p ea Hr) as [E|(arpu & R)];
    [rewrite E in Hin; destruct Hin|].
  split.
  - unfold pooled_into_all.
    rewrite (records_of_selected r db p ea arpu doc Hu R Hin).
    unfold doc_records. rewrite Hc.
    eexists. split; [reflexivity|]. simpl.
    split; [reflexivity|]. split; [reflexivity|]. apply length_concat.
  - rewrite label_map_group, length_concat_group. reflexivity.
Qed.

(** The second document of [db_spans], with a span of alice and one of bob. *)
Lemma C3_collaborative_document_witness :
  pooled_into_all (OfText SequenceLabelingRepository) db_spans project_pooled
                  false doc_world.
Proof.
  refine (proj1 (C3_collaborative_document
            (OfText SequenceLabelingRepository) db_spans project_pooled false
            doc_world _ _ _ _)).
  - unfold example_ids_unique. simpl.
    repeat constructor; simpl; intuition discriminate.
  - reflexivity.
  - right. left. reflexivity.
  - reflexivity.
Defined.

(** ** C4: whose relations are exported *)

(** C4.  Exporting project 1, whose one document carries one span of alice
    and no relation: alice's record carries the relation stored for project
    2, because the relation map is built from
    [AnnotationRelations.objects.all()], the rows of every project. *)
Theorem C4_relation_of_other_project_exported :
  AnnotationRelations_objects db_two_projects = [located_in] /\
  relation_project located_in <> project_id project_apart /\
  list_ (OfText SequenceLabelingRepository) db_two_projects project_apart false =
    ([mkRecord 1 "Hello" [SpanValue 5 8 "PER"] "alice" [("source", "demo")]
               [(0%Z, "LOC", 11%Z, "LOC", "located_in")]],
     Ok tt).
Proof.
  split; [reflexivity|]. split; [discriminate|reflexivity].
Qed.

(** ** C5: a relation whose span is not stored *)

(** C5, as written, fails when no document is selected: the relations are
    read inside the document loop, so an export of approved documents from a
    project where none is approved returns although a stored relation does
    not resolve. *)
Lemma C5_no_document_no_error :
  In dangling (AnnotationRelations_objects db_dangling) /\
  resolves db_dangling dangling = false /\
  selected db_dangling project_apart true = [] /\
  list_ (OfText SequenceLabelingRepository) db_dangling project_apart true =
    ([], Ok tt) /\
  ~ dangling_relation_raises db_dangling project_apart true.
Proof.
  split; [left; reflexivity|]. split; [reflexivity|]. split; [reflexivity|].
  split; [reflexivity|].
  intros H. apply H; [|reflexivity].
  exists dangling. split; [left; reflexivity|reflexivity].
Qed.

(** C5, amended.  In a sequence-labeling export with at least one selected
    document: if a stored relation references a span that is not stored, the
    export raises [DoesNotExist] at the first document, before any record is
    yielded; and with or without documents, if every stored relation
    resolves, the export raises nothing. *)
Theorem C5_dangling_relation db p ea :
  span_ids_unique db ->
  (selected db p ea <> [] ->
   (exists a, In a (AnnotationRelations_objects db) /\ resolves db a = false) ->
   list_ (OfText SequenceLabelingRepository) db p ea = ([], Raise DoesNotExist)) /\
  ((forall a, In a (AnnotationRelations_objects db) -> resolves db a = true) ->
   raised (list_ (OfText SequenceLabelingRepository) db p ea) = None).
Proof.
  intros Hu. split.
  - intros Hne Hex. apply list_raise; [|exact Hne].
    simpl. apply relations_loop_dangling; assumption.
  - intros Hall.
    destruct (relations_loop_all_resolve db (AnnotationRelations_objects db)
                Hu Hall defaultdict_list) as (d & Hd).
    rewrite (list_ok (OfText SequenceLabelingRepository) db p ea d Hd).
    reflexivity.
Qed.

(** [db_dangling] raises; [db_spans], where every relation resolves, does
    not. *)
Lemma C5_dangling_relation_witness :
  list_ (OfText SequenceLabelingRepository) db_dangling project_apart false =
    ([], Raise DoesNotExist) /\
  raised (list_ (OfText SequenceLabelingRepository) db_spans project_apart false) =
    None.
Proof.
  split.
  - refine (proj1 (C5_dangling_relation db_dangling project_apart false _) _ _).
    + unfold span_ids_unique. simpl. repeat constructor. intros [].
    + discriminate.
    + exists dangling. split; [left; reflexivity|reflexivity].
  - refine (proj2 (C5_dangling_relation db_spans project_apart false _) _).
    + unfold span_ids_unique. simpl.
      repeat constructor; simpl; intuition discriminate.
    + intros a [<-|[]]. reflexivity.
Defined.

(** ** C6: records without label *)

(** C6, as written, fails on a collaborative project: the reduction makes the
    key ["all"] whether or not there is an annotation, so a document without
    annotations is exported under ["all"] with an empty label. *)
Lemma C6_pooled_record_without_label :
  list_ (OfText SequenceLabelingRepository) db_plain project_pooled false =
    ([mkRecord 1 "Hello" [] "all" [("source", "demo")] []], Ok tt) /\
  ~ only_unknown_is_unlabelled
      (list_ (OfText SequenceLabelingRepository) db_plain project_pooled false).
Proof.
  split; [reflexivity|]. intros H.
  apply (H (mkRecord 1 "Hello" [] "all" [("source", "demo")] [])).
  - left. reflexivity.
  - discriminate.
  - reflexivity.
Qed.

(** C6, amended.  Every record whose user is not ["unknown"] has a label that
    is not empty, with one exception: in a collaborative project, the record
    of ["all"] of a document without annotations.  In a project that keeps
    annotators apart there is no exception, whatever the repository and the
    selection: a key is in the per-annotator map only once an annotation was
    appended to its bucket. *)
Theorem C6_records_without_label r db p ea rec :
  In rec (yielded (list_ r db p ea)) ->
  user rec <> "unknown" ->
  (collaborative_annotation p = false -> label rec <> []) /\
  (label rec = [] ->
   collaborative_annotation p = true /\
   user rec = "all" /\
   exists doc,
     In doc (selected db p ea) /\
     id_ rec = example_id doc /\
     annotations r db doc = []).
Proof.
  intros Hin Huser.
  destruct (yielded_inv r db p ea rec Hin) as (doc & arpu & Hdoc & _ & Hrec).
  destruct (collaborative_annotation p) eqn:Hc.
  - split; [discriminate|]. intros Hlabel. split; [reflexivity|].
    unfold doc_records in Hrec. rewrite Hc in Hrec. destruct Hrec as [<-|[]].
    split; [reflexivity|]. exists doc. split; [exact Hdoc|]. split; [reflexivity|].
    simpl in Hlabel.
    pose proof (length_concat_group _ _ fst snd (annotations r db doc)
                  defaultdict_list) as L.
    rewrite <- label_map_group, Hlabel in L. simpl in L.
    destruct (annotations r db doc); [reflexivity|simpl in L; lia].
  - assert (Hne : label rec <> []).
    { destruct (doc_records_separate r p doc _ arpu rec Hc Hrec)
        as [(ul & Hul & ->)|(_ & ->)].
      - simpl. apply (label_map_buckets_nonempty r db doc ul Hul).
      - exfalso. apply Huser. reflexivity. }
    split; [intros _; exact Hne|]. intros Hlabel. contradiction.
Qed.

(** The records of alice in [db_spans], kept apart, and the record of
    ["all"] of the document of [db_plain], pooled. *)
Lemma C6_records_without_label_witness :
  label record_of_alice <> [] /\
  (collaborative_annotation project_pooled = true /\
   user (mkRecord 1 "Hello" [] "all" [("source", "demo")] []) = "all" /\
   exists doc,
     In doc (selected db_plain project_pooled false) /\
     id_ (mkRecord 1 "Hello" [] "all" [("source", "demo")] []) = example_id doc /\
     annotations (OfText SequenceLabelingRepository) db_plain doc = []).
Proof.
  split.
  - apply (C6_records_without_label (OfText SequenceLabelingRepository)
             db_spans project_apart false record_of_alice).
    + left. reflexivity.
    + discriminate.
    + reflexivity.
  - apply (C6_records_without_label (OfText SequenceLabelingRepository)
             db_plain project_pooled false
             (mkRecord 1 "Hello" [] "all" [("source", "demo")] [])).
    + left. reflexivity.
    + discriminate.
    + reflexivity.
Defined.

(** ** C7: the exported relation tuples *)

(** Every record of an annotator comes with a relation map that the loop over
    the relations has built, and carries the annotator's bucket of it. *)
Lemma annotator_record_relations db p ea rec :
  collaborative_annotation p = false ->
  In rec (yielded (list_ (OfText SequenceLabelingRepository) db p ea)) ->
  label rec <> [] ->
  exists arpu,
    TextRepo.annotation_relations_per_user SequenceLabelingRepository db = Ok arpu /\
    annotation_relations rec = getitem_default arpu (user rec).
Proof.
  intros Hc Hin Hlabel.
  destruct (yielded_inv _ db p ea rec Hin) as (doc & arpu & _ & R & Hrec).
  destruct (doc_records_separate _ p doc _ arpu rec Hc Hrec)
    as [(ul & Hul & ->)|(_ & ->)].
  - exists arpu. split; [exact R|reflexivity].
  - exfalso. apply Hlabel. reflexivity.
Qed.

(** C7.  In a sequence-labeling export that keeps annotators apart, the
    relations of an annotator's record are the tuples of the stored relations
    that annotator owns, one for one and in retrieval order; the tuple of a
    relation is (start offset and label text of its first span, start offset
    and label text of its second span, name of its type). *)
Theorem C7_relations_of_annotator db p ea rec :
  collaborative_annotation p = false ->
  In rec (yielded (list_ (OfText SequenceLabelingRepository) db p ea)) ->
  label rec <> [] ->
  Forall2 (exported db)
          (filter (fun a => String.eqb (relation_user a) (user rec))
                  (AnnotationRelations_objects db))
          (annotation_relations rec).
Proof.
  intros Hc Hin Hlabel.
  destruct (annotator_record_relations db p ea rec Hc Hin Hlabel)
    as (arpu & R & ->).
  apply annotation_relations_per_user_bucket. exact R.
Qed.

(** alice's relation between the span at 5 ("PER") and the span at 12
    ("ORG"), of type "works_for". *)
Lemma C7_relations_of_annotator_witness :
  In record_of_alice
     (yielded (list_ (OfText SequenceLabelingRepository) db_spans project_apart false)) /\
  annotation_relations record_of_alice = [(5%Z, "PER", 12%Z, "ORG", "works_for")] /\
  Forall2 (exported db_spans) [works_for] (annotation_relations record_of_alice).
Proof.
  split; [left; reflexivity|]. split; [reflexivity|].
  apply (C7_relations_of_annotator db_spans project_apart false record_of_alice).
  - reflexivity.
  - left. reflexivity.
  - discriminate.
Defined.

(** ** C8: exporting approved documents only *)

(** C8, as written, fails in its second half when the export raises: with a
    relation whose span is not stored, the document of the project
    contributes no record although [export_approved] is [False]. *)
Lemma C8_no_record_when_export_raises :
  In doc_hello (Example_objects db_dangling) /\
  example_project doc_hello = project_id project_apart /\
  list_ (OfText SequenceLabelingRepository) db_dangling project_apart false =
    ([], Raise DoesNotExist) /\
  ~ every_document_exported (OfText SequenceLabelingRepository) db_dangling
      project_apart.
Proof.
  split; [left; reflexivity|]. split; [reflexivity|]. split; [reflexivity|].
  intros H. apply (H doc_hello); [left; reflexivity|reflexivity|reflexivity].
Qed.

Lemma NoDup_map_In_eq (A B : Type) (f : A -> B) l x y :
  NoDup (map f l) -> In x l -> In y l -> f x = f y -> x = y.
Proof.
  induction l as [|a l IH]; simpl; intros Hnd Hx Hy Hf; [destruct Hx|].
  inversion Hnd as [|? ? Hnotin Hnd']; subst.
  destruct Hx as [->|Hx], Hy as [->|Hy]; auto.
  - exfalso. apply Hnotin. rewrite Hf. apply in_map. exact Hy.
  - exfalso. apply Hnotin. rewrite <- Hf. apply in_map. exact Hx.
Qed.

Lemma selected_In db p ea doc :
  In doc (selected db p ea) <->
  In doc (Example_objects db) /\
  example_project doc = project_id p /\
  (ea = true -> annotations_approved_by doc <> None).
Proof.
  unfold selected, exclude_unapproved, Example_filter_project.
  destruct ea; rewrite ?filter_In, Z.eqb_eq.
  - destruct (annotations_approved_by doc); intuition congruence.
  - intuition congruence.
Qed.

(** A selected document contributes at least one record. *)
Lemma doc_records_nonempty r p doc lpu arpu :
  doc_records r p doc lpu arpu <> [].
Proof.
  unfold doc_records, len. destruct (collaborative_annotation p); [discriminate|].
  destruct (items lpu); discriminate.
Qed.

(** C8, amended.  With [export_approved=True] a document without approving
    reviewer contributes no record, whatever its annotations; with
    [export_approved=False] every document of the project contributes at
    least one record when the export raises no exception. *)
Theorem C8_export_approved r db p :
  example_ids_unique db ->
  approved_only r db p /\
  (raised (list_ r db p false) = None -> every_document_exported r db p).
Proof.
  intros Hu. split.
  - intros doc Hdoc Hnone. unfold records_of. apply filter_none.
    intros rec Hrec. apply Z.eqb_neq. intros Heq.
    destruct (yielded_inv r db p true rec Hrec) as (d & arpu & Hd & _ & Hin).
    apply doc_records_id in Hin. apply selected_In in Hd.
    destruct Hd as (Hd & _ & Happ).
    assert (d = doc).
    { apply (NoDup_map_In_eq _ _ example_id (Example_objects db)); auto.
      congruence. }
    subst d. apply Happ; auto.
  - intros Hr doc Hdoc Hproj.
    assert (Hin : In doc (selected db p false)).
    { apply selected_In. repeat split; auto. discriminate. }
    destruct (list_returns_inv r db p false Hr) as [E|(arpu & R)];
      [rewrite E in Hin; destruct Hin|].
    rewrite (records_of_selected r db p false arpu doc Hu R Hin).
    apply doc_records_nonempty.
Qed.

(** The first document of [db_spans] has no approving reviewer. *)
Lemma C8_export_approved_witness :
  records_of (list_ (OfText SequenceLabelingRepository) db_spans project_apart true)
             doc_hello = [] /\
  records_of (list_ (OfText SequenceLabelingRepository) db_spans project_apart false)
             doc_hello <> [].
Proof.
  assert (Hu : example_ids_unique db_spans).
  { unfold example_ids_unique. simpl.
    repeat constructor; simpl; intuition discriminate. }
  pose proof (C8_export_approved (OfText SequenceLabelingRepository) db_spans
                project_apart Hu) as [Happroved Hall].
  split.
  - apply Happroved; [left; reflexivity|reflexivity].
  - apply Hall; [reflexivity|left; reflexivity|reflexivity].
Defined.

(** ** C9: two calls over the same rows *)







(** *** The objects of a run *)
(** *** List objects *)

Section HeapFacts.

Variable V : Type.
Implicit Types (h : Heap V) (a b : Addr) (v : V).











(** *** Dicts of list objects *)









End HeapFacts.

(** *** The maps of a document, on the objects and on the values *)







(** *** One document *)







(** *** The document loop *)











(** ** C10: the relations of an annotator do not depend on the document *)

(** C10.  In a sequence-labeling export that keeps annotators apart, two
    records of annotators with the same user carry the same relations,
    whichever documents they belong to: the relation map is read from the
    relation table alone. *)
Theorem C10_same_relations_on_every_document db p ea rec1 rec2 :
  collaborative_annotation p = false ->
  In rec1 (yielded (list_ (OfText SequenceLabelingRepository) db p ea)) ->
  In rec2 (yielded (list_ (OfText SequenceLabelingRepository) db p ea)) ->
  label rec1 <> [] ->
  label rec2 <> [] ->
  user rec1 = user rec2 ->
  annotation_relations rec1 = annotation_relations rec2.
Proof.
  intros Hc H1 H2 L1 L2 Huser.
  destruct (annotator_record_relations db p ea rec1 Hc H1 L1) as (m1 & R1 & ->).
  destruct (annotator_record_relations db p ea rec2 Hc H2 L2) as (m2 & R2 & ->).
  rewrite R1 in R2. inversion R2; subst m2. rewrite Huser. reflexivity.
Qed.

(** alice's records for the first and for the second document. *)
Lemma C10_same_relations_on_every_document_witness :
  id_ record_of_alice = 1%Z /\
  annotation_relations record_of_alice =
  annotation_relations
    (mkRecord 2 "World" [SpanValue 0 5 "LOC"] "alice" []
              [(5%Z, "PER", 12%Z, "ORG", "works_for")]).
Proof.
  split; [reflexivity|].
  apply (C10_same_relations_on_every_document db_spans project_apart false).
  - reflexivity.
  - left. reflexivity.
  - right. left. reflexivity.
  - discriminate.
  - discriminate.
  - reflexivity.
Defined.

(** * The rest of the code *)

(** ** [str(example.filename).split('/')[-1]] *)

Lemma string_app_assoc (a b c : string) : ((a ++ b) ++ c = a ++ (b ++ c))%string.
Proof. induction a as [|x a IH]; simpl; [reflexivity|]. rewrite IH. reflexivity. Qed.

Lemma string_app_nil_r (a : string) : (a ++ "" = a)%string.
Proof. induction a as [|x a IH]; simpl; [reflexivity|]. rewrite IH. reflexivity. Qed.

Lemma contains_slash_app a b :
  contains_slash (a ++ b) = contains_slash a || contains_slash b.
Proof.
  induction a as [|x a IH]; simpl; [reflexivity|].
  rewrite IH, orb_assoc. reflexivity.
Qed.

(** Reading [a ++ b] is reading [a], then [b]. *)
Lemma last_segment_app a b current :
  last_segment (a ++ b) current = last_segment b (last_segment a current).
Proof.
  revert current. induction a as [|x a IH]; intros current; simpl; [reflexivity|].
  destruct (Ascii.eqb x "/"%char); apply IH.
Qed.

Lemma last_segment_no_slash s current :
  contains_slash s = false -> last_segment s current = (current ++ s)%string.
Proof.
  revert current. induction s as [|x s IH]; intros current; simpl.
  - intros _. rewrite string_app_nil_r. reflexivity.
  - intros H. apply orb_false_iff in H. destruct H as [Hx Hs].
    rewrite Hx, (IH _ Hs), string_app_assoc. reflexivity.
Qed.

Lemma last_segment_slash_free s current :
  contains_slash current = false -> contains_slash (last_segment s current) = false.
Proof.
  revert current. induction s as [|x s IH]; intros current H; simpl; [exact H|].
  destruct (Ascii.eqb x "/"%char) eqn:E; apply IH; [reflexivity|].
  rewrite contains_slash_app, H. simpl. rewrite E. reflexivity.
Qed.

Lemma last_segment_split s current :
  exists dir,
    (current ++ s = dir ++ last_segment s current)%string /\
    (dir = "" \/ exists d, dir = (d ++ "/")%string).
Proof.
  revert current. induction s as [|x s IH]; intros current; simpl.
  - exists "". rewrite string_app_nil_r. auto.
  - destruct (Ascii.eqb_spec x "/"%char) as [->|Hx].
    + destruct (IH "") as (dir & Hdir & Hend). simpl in Hdir.
      exists (current ++ String "/"%char dir)%string. split.
      * rewrite string_app_assoc. simpl. rewrite <- Hdir. reflexivity.
      * right. destruct Hend as [->|(d & ->)].
        -- exists current. reflexivity.
        -- exists (current ++ String "/"%char d)%string.
           rewrite string_app_assoc. reflexivity.
    + destruct (IH (current ++ String x "")%string) as (dir & Hdir & Hend).
      exists dir. split; [|exact Hend].
      rewrite <- Hdir, string_app_assoc. reflexivity.
Qed.

(** X1.  The data of a file record is what follows the last ['/'] of the file
    name: it has no ['/'], and the file name is a directory part, empty or
    ending in ['/'], followed by it. *)
Theorem basename_after_last_slash s :
  contains_slash (basename s) = false /\
  exists dir,
    s = (dir ++ basename s)%string /\
    (dir = "" \/ exists d, dir = (d ++ "/")%string).
Proof.
  split.
  - apply last_segment_slash_free. reflexivity.
  - destruct (last_segment_split s "") as (dir & Hdir & Hend). eauto.
Qed.

(** X2.  A name without ['/'] is exported as it is. *)
Theorem basename_of_plain_name s :
  contains_slash s = false -> basename s = s.
Proof. intros H. apply (last_segment_no_slash s "" H). Qed.

Lemma basename_of_plain_name_witness : basename "hello.wav" = "hello.wav".
Proof. apply basename_of_plain_name. reflexivity. Defined.

(** X3.  The directories in front of a name do not count: only what follows the
    last ['/'] is exported, and nothing when the name ends in ['/']. *)
Theorem basename_drops_directory dir name :
  basename (dir ++ "/" ++ name) = basename name /\
  basename (dir ++ "/") = "".
Proof.
  unfold basename. split.
  - rewrite last_segment_app. change ("/" ++ name)%string with (String "/"%char name).
    reflexivity.
  - rewrite last_segment_app. reflexivity.
Qed.

(** ** How [list] ends *)

(** A run that raises has met a document, has failed to build the relation
    map, and has yielded nothing. *)
Lemma raised_inv r db p ea e :
  raised (list_ r db p ea) = Some e ->
  relation_map r db = Raise e /\ selected db p ea <> [] /\
  list_ r db p ea = ([], Raise e).
Proof.
  intros H. destruct (relation_map r db) as [arpu|e'] eqn:R.
  - rewrite (list_ok r db p ea arpu R) in H. discriminate.
  - destruct (selected db p ea) as [|d ds] eqn:E.
    + rewrite (list_no_documents r db p ea E) in H. discriminate.
    + assert (Hne : selected db p ea <> []) by (rewrite E; discriminate).
      rewrite <- E. rewrite (list_raise r db p ea e' R Hne) in H |- *.
      inversion H; subst. auto.
Qed.

Lemma Span_get_raises db i e : Span_get db i = Raise e -> lookup_error e.
Proof.
  unfold Span_get, lookup_error.
  destruct (filter _ _) as [|s1 [|s2 l]]; intros H; inversion H; auto.
Qed.

Lemma relations_loop_raises db rows :
  forall acc e, TextRepo.relations_loop db rows acc = Raise e -> lookup_error e.
Proof.
  induction rows as [|a rows IH]; simpl; intros acc e H; [discriminate|].
  destruct (Span_get db (annotation_id_1 a)) as [s1|e1] eqn:G1.
  - destruct (Span_get db (annotation_id_2 a)) as [s2|e2] eqn:G2.
    + exact (IH _ _ H).
    + inversion H; subst. exact (Span_get_raises db _ _ G2).
  - inversion H; subst. exact (Span_get_raises db _ _ G1).
Qed.

(** X4.  An export is all or nothing: when [list] raises, it does so before the
    first record, whatever the repository, so that a consumer never sees a
    part of an export followed by an exception. *)
Theorem raises_before_first_record r db p ea e :
  raised (list_ r db p ea) = Some e -> yielded (list_ r db p ea) = [].
Proof.
  intros H. destruct (raised_inv r db p ea e H) as (_ & _ & ->). reflexivity.
Qed.

Lemma raises_before_first_record_witness :
  yielded (list_ (OfText SequenceLabelingRepository) db_dangling project_apart false)
  = [].
Proof.
  apply (raises_before_first_record _ _ _ _ DoesNotExist). reflexivity.
Defined.

(** X5.  What [list] can raise: nothing for the file repositories; the exceptions
    of [Span.objects.get] for sequence labeling; [AttributeError], for the
    method they lack, for text classification and seq2seq.  In particular the
    lookup [annotation_relations_per_user[user]] never raises [KeyError]. *)
Theorem exceptions_of_list r db p ea e :
  raised (list_ r db p ea) = Some e ->
  e <> KeyError /\
  match r with
  | OfFile _ => False
  | OfText SequenceLabelingRepository => lookup_error e
  | OfText _ => e = AttributeError
  end.
Proof.
  intros H. destruct (raised_inv r db p ea e H) as (R & _ & _).
  destruct r as [k|[]]; simpl in R.
  - discriminate.
  - inversion R. split; [discriminate|reflexivity].
  - apply relations_loop_raises in R. split; [|exact R].
    destruct R as [-> | ->]; discriminate.
  - inversion R. split; [discriminate|reflexivity].
Qed.

Lemma exceptions_of_list_witness : lookup_error DoesNotExist.
Proof.
  apply (proj2 (exceptions_of_list (OfText SequenceLabelingRepository)
                  db_dangling project_apart false DoesNotExist eq_refl)).
Defined.

(** X6.  The text-classification and the seq2seq repositories export nothing but
    the empty project: they return when no document is selected and raise
    [AttributeError] as soon as there is one. *)
Theorem export_without_relation_method k db p ea :
  k <> SequenceLabelingRepository ->
  (selected db p ea = [] -> list_ (OfText k) db p ea = ([], Ok tt)) /\
  (selected db p ea <> [] -> list_ (OfText k) db p ea = ([], Raise AttributeError)).
Proof.
  intros Hk. split.
  - apply list_no_documents.
  - apply list_raise. destruct k; simpl; congruence.
Qed.

Lemma export_without_relation_method_witness :
  list_ (OfText Seq2seqRepository) db_hello project_apart true = ([], Ok tt) /\
  list_ (OfText Seq2seqRepository) db_hello project_apart false =
    ([], Raise AttributeError).
Proof.
  assert (Hk : Seq2seqRepository <> SequenceLabelingRepository) by discriminate.
  split.
  - apply (proj1 (export_without_relation_method Seq2seqRepository db_hello
                    project_apart true Hk)). reflexivity.
  - apply (proj2 (export_without_relation_method Seq2seqRepository db_hello
                    project_apart false Hk)). discriminate.
Defined.

(** ** The fields of the records *)

Lemma doc_records_fields r p doc lpu arpu rec :
  In rec (doc_records r p doc lpu arpu) ->
  id_ rec = example_id doc /\
  data rec = data_of r doc /\
  (metadata rec = meta doc \/ (metadata rec = [] /\ user rec = "unknown")).
Proof.
  unfold doc_records. destruct (collaborative_annotation p).
  - intros [<-|[]]. simpl. auto.
  - rewrite in_app_iff, in_map_iff. intros [((u & l) & <- & _)|H]; [simpl; auto|].
    destruct (Nat.eqb (len lpu) 0); [|destruct H].
    destruct H as [<-|[]]. simpl. auto.
Qed.

(** X7.  The file repositories always return; their records carry the base name
    of the file, without any ['/'], and no relation. *)
Theorem file_repository_records k db p ea :
  raised (list_ (OfFile k) db p ea) = None /\
  forall rec, In rec (yielded (list_ (OfFile k) db p ea)) ->
    contains_slash (data rec) = false /\ annotation_relations rec = [].
Proof.
  split; [apply file_repository_returns|].
  intros rec Hin.
  destruct (yielded_inv _ db p ea rec Hin) as (doc & arpu & _ & R & Hrec).
  simpl in R. inversion R; subst arpu. split.
  - destruct (doc_records_fields _ p doc _ _ rec Hrec) as (_ & -> & _).
    apply last_segment_slash_free. reflexivity.
  - unfold doc_records in Hrec. destruct (collaborative_annotation p).
    + destruct Hrec as [<-|[]]. reflexivity.
    + rewrite in_app_iff, in_map_iff in Hrec.
      destruct Hrec as [(ul & <- & _)|H]; [reflexivity|].
      destruct (Nat.eqb _ 0); [|destruct H]. destruct H as [<-|[]]. reflexivity.
Qed.

(** The export of [db_hello] as files. *)
Lemma file_repository_records_witness :
  contains_slash "hello.wav" = false /\
  annotation_relations
    (mkRecord 1 "hello.wav" [TextValue "greeting"] "alice" [("source", "demo")] [])
  = [].
Proof.
  apply (proj2 (file_repository_records FileRepository db_hello project_apart false)
               (mkRecord 1 "hello.wav" [TextValue "greeting"] "alice"
                         [("source", "demo")] [])).
  left. reflexivity.
Defined.

(** ** The order and the number of the records *)

Lemma keys_items_append_first_seen (V : Type) (its : list (string * list V)) k v :
  map fst (items_append its k v) =
  if existsb (String.eqb k) (map fst its) then map fst its else map fst its ++ [k].
Proof.
  induction its as [|[k' vs] its IH]; simpl; [reflexivity|].
  destruct (String.eqb_spec k' k) as [->|Hk]; simpl.
  - rewrite String.eqb_refl. reflexivity.
  - rewrite IH. destruct (String.eqb_spec k k') as [->|_]; [congruence|]. simpl.
    destruct (existsb (String.eqb k) (map fst its)); reflexivity.
Qed.

(** The keys of a map filled by the grouping loop: one per annotator, in the
    order in which the annotators first occur. *)
Lemma keys_group_first_seen (A V : Type) (ku : A -> string) (kv : A -> V) xs :
  forall d, keys (group ku kv xs d) = first_seen_from (keys d) (map ku xs).
Proof.
  induction xs as [|a xs IH]; intros d; simpl; [reflexivity|].
  rewrite IH. unfold keys at 1, getitem_append. simpl.
  rewrite keys_items_append_first_seen. reflexivity.
Qed.

Lemma map_user_annotator_record r doc arpu its :
  map user (map (annotator_record r doc arpu) its) = map fst its.
Proof. rewrite map_map. reflexivity. Qed.

Lemma map_label_annotator_record r doc arpu its :
  map label (map (annotator_record r doc arpu) its) = map snd its.
Proof. rewrite map_map. reflexivity. Qed.

(** X8.  In an export that keeps annotators apart and returns, the records of a
    document come one per annotator, in the order in which the annotators
    first occur among the document's annotations; a document without
    annotation has the one record of ["unknown"]. *)
Theorem annotators_in_order r db p ea doc :
  example_ids_unique db ->
  collaborative_annotation p = false ->
  raised (list_ r db p ea) = None ->
  In doc (selected db p ea) ->
  map user (records_of (list_ r db p ea) doc) =
  match annotations r db doc with
  | [] => ["unknown"]
  | _ :: _ => first_seen (map fst (annotations r db doc))
  end.
Proof.
  intros Hu Hc Hr Hin.
  destruct (list_returns_inv r db p ea Hr) as [E|(arpu & R)];
    [rewrite E in Hin; destruct Hin|].
  rewrite (records_of_selected r db p ea arpu doc Hu R Hin).
  unfold doc_records. rewrite Hc, map_app, map_user_annotator_record.
  fold (keys (label_map r db doc)). unfold len.
  pose proof (group_nil_items _ _ fst snd (annotations r db doc)) as N.
  rewrite <- label_map_group in N.
  rewrite label_map_group at 1. rewrite keys_group_first_seen.
  destruct (annotations r db doc) as [|a l] eqn:E.
  - rewrite (proj2 N eq_refl). reflexivity.
  - destruct (items (label_map r db doc)) as [|i its] eqn:I.
    + destruct N as [N _]. discriminate (N eq_refl).
    + simpl. rewrite app_nil_r. reflexivity.
Qed.

(** In the second document of [db_spans] the span of alice is retrieved
    before the span of bob. *)
Lemma annotators_in_order_witness :
  map user (records_of (list_ (OfText SequenceLabelingRepository) db_spans
                              project_apart false) doc_world) =
  ["alice"; "bob"].
Proof.
  apply (annotators_in_order (OfText SequenceLabelingRepository) db_spans
           project_apart false doc_world).
  - unfold example_ids_unique. simpl.
    repeat constructor; simpl; intuition discriminate.
  - reflexivity.
  - reflexivity.
  - right. left. reflexivity.
Defined.

Lemma flat_map_ext_in (A B : Type) (f g : A -> list B) l :
  (forall a, In a l -> f a = g a) -> flat_map f l = flat_map g l.
Proof.
  induction l as [|a l IH]; simpl; intros H; [reflexivity|].
  rewrite (H a) by (left; reflexivity).
  rewrite IH by (intros b Hb; apply H; right; exact Hb). reflexivity.
Qed.

(** X9.  An export that returns is the records of its documents, document after
    document in the order of selection: the records of one document are
    never mixed with those of another. *)
Theorem documents_in_order r db p ea :
  example_ids_unique db ->
  raised (list_ r db p ea) = None ->
  yielded (list_ r db p ea) =
  flat_map (records_of (list_ r db p ea)) (selected db p ea).
Proof.
  intros Hu Hr.
  destruct (list_returns_inv r db p ea Hr) as [E|(arpu & R)].
  - rewrite E, (list_no_documents r db p ea E). reflexivity.
  - rewrite (flat_map_ext_in _ _ _
               (fun doc => doc_records r p doc (label_map r db doc) arpu)).
    + rewrite (list_ok r db p ea arpu R). reflexivity.
    + intros doc Hdoc. apply (records_of_selected r db p ea arpu doc Hu R Hdoc).
Qed.

Lemma documents_in_order_witness :
  map id_ (yielded (list_ (OfText SequenceLabelingRepository) db_spans
                          project_apart false)) = [1; 2; 2]%Z.
Proof.
  rewrite (documents_in_order (OfText SequenceLabelingRepository) db_spans
             project_apart false).
  - reflexivity.
  - unfold example_ids_unique. simpl.
    repeat constructor; simpl; intuition discriminate.
  - reflexivity.
Defined.

(** X10.  In a collaborative export that returns there are as many records as
    selected documents: the one of each document, under ["all"], in the
    order of the documents. *)
Theorem collaborative_one_per_document r db p ea :
  collaborative_annotation p = true ->
  raised (list_ r db p ea) = None ->
  map record_key (yielded (list_ r db p ea)) =
  map (fun doc => (example_id doc, "all")) (selected db p ea).
Proof.
  intros Hc Hr.
  destruct (list_returns_inv r db p ea Hr) as [E|(arpu & R)].
  - rewrite E, (list_no_documents r db p ea E). reflexivity.
  - rewrite (list_ok r db p ea arpu R). simpl.
    induction (selected db p ea) as [|doc docs IH]; simpl; [reflexivity|].
    rewrite map_app, IH. unfold doc_records. rewrite Hc. reflexivity.
Qed.

Lemma collaborative_one_per_document_witness :
  map record_key (yielded (list_ (OfText SequenceLabelingRepository) db_spans
                                 project_pooled false)) =
  [(1%Z, "all"); (2%Z, "all")].
Proof.
  apply (collaborative_one_per_document (OfText SequenceLabelingRepository)
           db_spans project_pooled false); reflexivity.
Defined.

(** ** One record per document and user *)

Lemma NoDup_map_pair (A B : Type) (a : A) (l : list B) :
  NoDup l -> NoDup (map (pair a) l).
Proof.
  induction l as [|b l IH]; simpl; intros H; [constructor|].
  inversion H as [|? ? Hnotin Hnd]; subst. constructor; [|auto].
  intros Hin. apply in_map_iff in Hin. destruct Hin as (b' & Heq & Hb').
  inversion Heq; subst. contradiction.
Qed.

Lemma doc_records_keys_NoDup r db p doc arpu :
  NoDup (map record_key (doc_records r p doc (label_map r db doc) arpu)).
Proof.
  unfold doc_records. destruct (collaborative_annotation p).
  - simpl. constructor; [intros []|constructor].
  - unfold len. destruct (items (label_map r db doc)) as [|i its] eqn:I.
    + simpl. constructor; [intros []|constructor].
    + simpl Nat.eqb. cbv iota. rewrite app_nil_r, <- I, map_map.
      change (fun x => record_key (annotator_record r doc arpu x))
        with (fun x : string * list LabelValue => (example_id doc, fst x)).
      rewrite <- (map_map fst (pair (example_id doc))).
      apply NoDup_map_pair. apply label_map_keys_NoDup.
Qed.

Lemma NoDup_keys_flat_map (f : Example -> list Record_) docs :
  NoDup (map example_id docs) ->
  (forall d, NoDup (map record_key (f d))) ->
  (forall d rec, In rec (f d) -> id_ rec = example_id d) ->
  NoDup (map record_key (flat_map f docs)).
Proof.
  intros Hnd Hdoc Hid. induction docs as [|d docs IH]; simpl; [constructor|].
  inversion Hnd as [|? ? Hnotin Hnd']; subst.
  rewrite map_app. apply NoDup_app; [apply Hdoc|auto|].
  intros key H1 H2.
  apply in_map_iff in H1. destruct H1 as (rec1 & <- & Hrec1).
  apply in_map_iff in H2. destruct H2 as (rec2 & Hkey & Hrec2).
  apply in_flat_map in Hrec2. destruct Hrec2 as (d' & Hd' & Hrec2).
  apply Hnotin. unfold record_key in Hkey. inversion Hkey as [[Hi Hu]].
  rewrite <- (Hid _ _ Hrec1), <- Hi, (Hid _ _ Hrec2).
  apply in_map. exact Hd'.
Qed.

(** X11.  No two records of an export have the same document and the same user,
    in either mode and whether or not the export returns. *)
Theorem one_record_per_document_and_user r db p ea :
  example_ids_unique db ->
  NoDup (map record_key (yielded (list_ r db p ea))).
Proof.
  intros Hu. destruct (relation_map r db) as [arpu|e] eqn:R.
  - rewrite (list_ok r db p ea arpu R). simpl.
    apply (NoDup_keys_flat_map
             (fun doc => doc_records r p doc (label_map r db doc) arpu)).
    + apply selected_ids_unique. exact Hu.
    + intros d. apply doc_records_keys_NoDup.
    + intros d rec. apply doc_records_id.
  - destruct (selected db p ea) as [|d ds] eqn:E.
    + rewrite (list_no_documents r db p ea E). constructor.
    + rewrite (list_raise r db p ea e R) by (rewrite E; discriminate).
      constructor.
Qed.

Lemma one_record_per_document_and_user_witness :
  NoDup (map record_key
           (yielded (list_ (OfText SequenceLabelingRepository) db_spans
                           project_apart false))).
Proof.
  apply (one_record_per_document_and_user (OfText SequenceLabelingRepository)
           db_spans project_apart false).
  unfold example_ids_unique. simpl.
  repeat constructor; simpl; intuition discriminate.
Defined.

(** ** No label is lost, none is made up *)

Lemma Permutation_items_append (V : Type) (its : list (string * list V)) k v :
  Permutation (List.concat (map snd (items_append its k v)))
              (List.concat (map snd its) ++ [v]).
Proof.
  induction its as [|[k' vs] its IH]; simpl; [reflexivity|].
  destruct (String.eqb k' k); simpl.
  - rewrite <- !app_assoc. apply Permutation_app_head. apply Permutation_app_comm.
  - rewrite <- app_assoc. apply Permutation_app_head. exact IH.
Qed.

Lemma Permutation_group (A V : Type) (ku : A -> string) (kv : A -> V) xs :
  forall d, Permutation (List.concat (values (group ku kv xs d)))
                        (List.concat (values d) ++ map kv xs).
Proof.
  induction xs as [|a xs IH]; intros d; simpl.
  - rewrite app_nil_r. reflexivity.
  - rewrite IH. unfold values at 1, getitem_append. simpl.
    rewrite Permutation_items_append, <- app_assoc. reflexivity.
Qed.

(** X12.  In an export that returns, in either mode, the labels of the records of
    a document are the label values of the document's annotations: each one
    once, regrouped by annotator. *)
Theorem labels_of_document r db p ea doc :
  example_ids_unique db ->
  raised (list_ r db p ea) = None ->
  In doc (selected db p ea) ->
  Permutation (List.concat (map label (records_of (list_ r db p ea) doc)))
              (map snd (annotations r db doc)).
Proof.
  intros Hu Hr Hin.
  destruct (list_returns_inv r db p ea Hr) as [E|(arpu & R)];
    [rewrite E in Hin; destruct Hin|].
  rewrite (records_of_selected r db p ea arpu doc Hu R Hin).
  assert (P : Permutation (List.concat (values (label_map r db doc)))
                          (map snd (annotations r db doc))).
  { rewrite label_map_group.
    apply (Permutation_group _ _ fst snd (annotations r db doc) defaultdict_list). }
  unfold doc_records. destruct (collaborative_annotation p).
  - simpl. rewrite app_nil_r. exact P.
  - rewrite map_app, map_label_annotator_record, concat_app.
    destruct (Nat.eqb _ 0); simpl; rewrite app_nil_r; exact P.
Qed.

Lemma labels_of_document_witness :
  Permutation
    (List.concat (map label (records_of
       (list_ (OfText SequenceLabelingRepository) db_spans project_apart false)
       doc_world)))
    [SpanValue 0 5 "LOC"; SpanValue 0 5 "LOC"].
Proof.
  apply (labels_of_document (OfText SequenceLabelingRepository) db_spans
           project_apart false doc_world).
  - unfold example_ids_unique. simpl.
    repeat constructor; simpl; intuition discriminate.
  - reflexivity.
  - right. left. reflexivity.
Defined.

(** ** Where a record comes from *)

(** X13.  A record with labels, in an export that keeps annotators apart, is the
    record of one selected document for one annotator: it has the id, the
    data and the metadata of the document, and its labels are the label
    values of that annotator's annotations of the document, all of them and
    only them, in retrieval order. *)
Theorem record_of_annotator r db p ea rec :
  collaborative_annotation p = false ->
  In rec (yielded (list_ r db p ea)) ->
  label rec <> [] ->
  exists doc,
    In doc (selected db p ea) /\
    id_ rec = example_id doc /\
    data rec = data_of r doc /\
    metadata rec = meta doc /\
    label rec =
      map snd (filter (fun a => String.eqb (fst a) (user rec)) (annotations r db doc)).
Proof.
  intros Hc Hin Hlabel.
  destruct (yielded_inv r db p ea rec Hin) as (doc & arpu & Hdoc & _ & Hrec).
  destruct (doc_records_separate r p doc _ arpu rec Hc Hrec)
    as [([u l] & Hul & ->)|(_ & ->)].
  - exists doc. simpl. repeat split; try assumption.
    apply label_map_bucket. exact Hul.
  - exfalso. apply Hlabel. reflexivity.
Qed.

Lemma record_of_annotator_witness :
  exists doc,
    In doc (selected db_spans project_apart false) /\
    id_ record_of_alice = example_id doc /\
    data record_of_alice = data_of (OfText SequenceLabelingRepository) doc /\
    metadata record_of_alice = meta doc /\
    label record_of_alice =
      map snd (filter (fun a => String.eqb (fst a) (user record_of_alice))
                      (annotations (OfText SequenceLabelingRepository) db_spans doc)).
Proof.
  apply (record_of_annotator (OfText SequenceLabelingRepository) db_spans
           project_apart false record_of_alice).
  - reflexivity.
  - left. reflexivity.
  - discriminate.
Defined.

(** X14.  A record without label, in an export that keeps annotators apart, is the
    fallback of a selected document that has no annotation: user
    ["unknown"], no metadata, no relation. *)
Theorem record_without_label r db p ea rec :
  collaborative_annotation p = false ->
  In rec (yielded (list_ r db p ea)) ->
  label rec = [] ->
  exists doc,
    In doc (selected db p ea) /\
    annotations r db doc = [] /\
    rec = mkRecord (example_id doc) (data_of r doc) [] "unknown" [] [].
Proof.
  intros Hc Hin Hlabel.
  destruct (yielded_inv r db p ea rec Hin) as (doc & arpu & Hdoc & _ & Hrec).
  destruct (doc_records_separate r p doc _ arpu rec Hc Hrec)
    as [(ul & Hul & ->)|(Hnil & ->)].
  - exfalso. apply (label_map_buckets_nonempty r db doc ul Hul). exact Hlabel.
  - exists doc. split; [exact Hdoc|]. split; [|reflexivity].
    rewrite label_map_group in Hnil.
    apply (group_nil_items _ _ fst snd). exact Hnil.
Qed.

Lemma record_without_label_witness :
  exists doc,
    In doc (selected db_plain project_apart false) /\
    annotations (OfFile FileRepository) db_plain doc = [] /\
    mkRecord 1 "hello.wav" [] "unknown" [] [] =
    mkRecord (example_id doc) (data_of (OfFile FileRepository) doc) [] "unknown" [] [].
Proof.
  apply (record_without_label (OfFile FileRepository) db_plain project_apart false
           (mkRecord 1 "hello.wav" [] "unknown" [] [])).
  - reflexivity.
  - left. reflexivity.
  - reflexivity.
Defined.

(** ** Exporting the approved documents only *)

(** X15.  [export_approved] removes documents and changes nothing else: when the
    full export returns, an approved document contributes to the export of
    the approved documents the records it contributes to the full export. *)
Theorem approved_documents_unchanged r db p doc :
  example_ids_unique db ->
  raised (list_ r db p false) = None ->
  In doc (selected db p true) ->
  records_of (list_ r db p true) doc = records_of (list_ r db p false) doc.
Proof.
  intros Hu Hr Hin.
  assert (Hin' : In doc (selected db p false)).
  { apply selected_In in Hin. apply selected_In.
    destruct Hin as (H1 & H2 & _). repeat split; auto. discriminate. }
  destruct (list_returns_inv r db p false Hr) as [E|(arpu & R)];
    [rewrite E in Hin'; destruct Hin'|].
  rewrite (records_of_selected r db p true arpu doc Hu R Hin).
  rewrite (records_of_selected r db p false arpu doc Hu R Hin').
  reflexivity.
Qed.

Lemma approved_documents_unchanged_witness :
  records_of (list_ (OfText SequenceLabelingRepository) db_spans project_apart true)
             doc_world =
  records_of (list_ (OfText SequenceLabelingRepository) db_spans project_apart false)
             doc_world.
Proof.
  apply (approved_documents_unchanged (OfText SequenceLabelingRepository)
           db_spans project_apart doc_world).
  - unfold example_ids_unique. simpl.
    repeat constructor; simpl; intuition discriminate.
  - reflexivity.
  - left. reflexivity.
Defined.

(** ** The relations of the records *)

(** X16.  An annotator who owns no stored relation is exported with an empty list
    of relations: the lookup of a missing user in the relation map gives the
    default of the [defaultdict], not a [KeyError]. *)
Theorem annotator_without_relation db p ea rec :
  collaborative_annotation p = false ->
  In rec (yielded (list_ (OfText SequenceLabelingRepository) db p ea)) ->
  label rec <> [] ->
  (forall a, In a (AnnotationRelations_objects db) -> relation_user a <> user rec) ->
  annotation_relations rec = [].
Proof.
  intros Hc Hin Hlabel Hnone.
  destruct (annotator_record_relations db p ea rec Hc Hin Hlabel)
    as (arpu & R & ->).
  pose proof (annotation_relations_per_user_bucket db arpu (user rec) R) as F.
  rewrite filter_none in F.
  - inversion F. reflexivity.
  - intros a Ha. apply String.eqb_neq. apply Hnone. exact Ha.
Qed.

(** bob has a span in the second document of [db_spans] and no relation. *)
Lemma annotator_without_relation_witness :
  annotation_relations (mkRecord 2 "World" [SpanValue 0 5 "LOC"] "bob" [] []) = [].
Proof.
  apply (annotator_without_relation db_spans project_apart false).
  - reflexivity.
  - right. right. left. reflexivity.
  - discriminate.
  - intros a [<-|[]]. discriminate.
Defined.

Lemma map_snd_combine_users (R : AnnotationRelations -> RelationTuple -> Prop)
      rows ts :
  Forall2 R rows ts ->
  map snd (combine (map relation_user rows) ts) = ts.
Proof.
  induction 1 as [|a t rows ts _ _ IH]; simpl; [reflexivity|].
  rewrite IH. reflexivity.
Qed.

(** The relation map is the grouping, by owner, of the tuples of the stored
    relations. *)
Lemma relations_loop_group db rows :
  forall acc d,
    TextRepo.relations_loop db rows acc = Ok d ->
    exists ts,
      Forall2 (exported db) rows ts /\
      d = group fst snd (combine (map relation_user rows) ts) acc.
Proof.
  induction rows as [|a rows IH]; simpl; intros acc d H.
  - inversion H; subst. exists []. split; [constructor|reflexivity].
  - destruct (Span_get db (annotation_id_1 a)) as [s1|] eqn:G1; [|discriminate].
    destruct (Span_get db (annotation_id_2 a)) as [s2|] eqn:G2; [|discriminate].
    destruct (IH _ _ H) as (ts & Hts & ->).
    eexists (_ :: ts). split.
    + constructor; [|exact Hts]. exists s1, s2. auto.
    + reflexivity.
Qed.

(** X17.  In a collaborative sequence-labeling export every record, whatever its
    document, carries the tuple of every stored relation: each one once,
    regrouped by owner. *)
Theorem collaborative_record_has_all_relations db p ea rec :
  collaborative_annotation p = true ->
  In rec (yielded (list_ (OfText SequenceLabelingRepository) db p ea)) ->
  exists ts,
    Forall2 (exported db) (AnnotationRelations_objects db) ts /\
    Permutation (annotation_relations rec) ts.
Proof.
  intros Hc Hin.
  destruct (yielded_inv _ db p ea rec Hin) as (doc & arpu & _ & R & Hrec).
  unfold doc_records in Hrec. rewrite Hc in Hrec. destruct Hrec as [<-|[]].
  simpl in R. destruct (relations_loop_group db _ _ _ R) as (ts & Hts & ->).
  exists ts. split; [exact Hts|]. simpl.
  rewrite (Permutation_group _ _ fst snd). simpl.
  rewrite (map_snd_combine_users _ _ _ Hts). reflexivity.
Qed.

(** The record of the second document of [db_spans] carries the relation
    between the spans of the first. *)
Lemma collaborative_record_has_all_relations_witness :
  exists ts,
    Forall2 (exported db_spans) [works_for] ts /\
    Permutation
      (annotation_relations
         (mkRecord 2 "World" [SpanValue 0 5 "LOC"; SpanValue 0 5 "LOC"] "all" []
                   [(5%Z, "PER", 12%Z, "ORG", "works_for")]))
      ts.
Proof.
  apply (collaborative_record_has_all_relations db_spans project_pooled false).
  - reflexivity.
  - right. left. reflexivity.
Defined.

(** ** [Record.__str__] *)

Lemma before_tab_app d rest :
  contains_tab d = false -> before_tab (d ++ String tab rest) = d.
Proof.
  induction d as [|c d IH]; simpl; intros H.
  - reflexivity.
  - apply orb_false_iff in H. destruct H as [Hc Hd].
    rewrite Hc, (IH Hd). reflexivity.
Qed.

(** X18.  The printed form of a record starts with its data: whatever the printed
    form of the labels, what stands before the first tabulation is the data
    of the record, as long as the data has no tabulation itself. *)
Theorem Record_str_starts_with_data str_label rec :
  contains_tab (data rec) = false ->
  before_tab (Record_str str_label rec) = data rec.
Proof. intros H. apply before_tab_app. exact H. Qed.

Lemma Record_str_starts_with_data_witness :
  before_tab (Record_str (fun _ => "[]") (mkRecord 1 "Hello" [] "unknown" [] []))
  = "Hello".
Proof.
  apply (Record_str_starts_with_data (fun _ => "[]")
           (mkRecord 1 "Hello" [] "unknown" [] [])).
  reflexivity.
Defined.
